(** * SILLocation: provenance tags of SIL instructions

    A shallow embedding of [include/swift/SIL/SILLocation.h]: the location
    tag (AST node reference, raw position of a .sil file, kind and flag bits
    packed in [KindData]), its eight kind-specific views, the narrowing
    operations and the flag mutators, with the properties the specification
    states about them. *)

From Stdlib Require Import ZArith Bool List Lia Permutation.
Import ListNotations.

Local Open Scope Z_scope.

(** ** Assertions

    [assert(c)] and the asserting accessors of the LLVM support library abort
    the process.  A computation that can abort returns a [result]. *)

Inductive result (A : Type) : Type :=
| Ret (a : A)
| Abort.

Arguments Ret {A} a.
Arguments Abort {A}.

Definition bind {A B : Type} (c : result A) (k : A -> result B) : result B :=
  match c with
  | Ret a => k a
  | Abort => Abort
  end.

Notation "x <- c ;; k" := (bind c (fun x => k))
  (at level 61, c at next level, right associativity).

(** [assert(c)] *)
Definition assertion (c : bool) : result unit :=
  if c then Ret tt else Abort.

(** [a || b] where both operands may abort: [b] is evaluated only when [a]
    returned false. *)
Definition orElse (a b : result bool) : result bool :=
  x <- a ;; if x then Ret true else b.

(** ** The AST node model

    The four node families of [base_type<T>]: a node type [T] derives from
    exactly one of [Stmt], [Expr], [Decl], [Pattern]. *)

Inductive Family : Type := StmtF | ExprF | DeclF | PatternF.

Definition Family_eqb (a b : Family) : bool :=
  match a, b with
  | StmtF, StmtF | ExprF, ExprF | DeclF, DeclF | PatternF, PatternF => true
  | _, _ => false
  end.

(** The discriminator of a family in
    [PointerUnion4<Stmt*, Expr*, Decl*, Pattern*>]: the position of its
    pointer type in the template argument list. *)
Definition Family_index (f : Family) : Z :=
  match f with
  | StmtF => 0
  | ExprF => 1
  | DeclF => 2
  | PatternF => 3
  end.

(** A pointer to an AST node is its address; [nullptr] is 0. *)
Definition pointer : Type := Z.

Definition nullptr : pointer := 0.

(** A static node type [T]: [base_type<T>::type] and [T::classof], the
    test of LLVM-style RTTI on the kind stored in the node. *)
Record ASTType : Type := mkASTType {
  base_type : Family;
  classof : nat -> bool
}.

(** Modelled from the spec: the raw textual position.  [SourceLoc] is only
    forward-declared in this header ([class SourceLoc;]).  It is an opaque
    comparable position that may be absent; here an offset into the source
    buffers, where the default-constructed position 0 is the invalid one. *)
Record SourceLoc : Type := mkSourceLoc { Value : Z }.

Definition SourceLoc_default : SourceLoc := mkSourceLoc 0.

Definition SourceLoc_isInvalid (l : SourceLoc) : bool := Value l =? 0.

Definition SourceLoc_eqb (a b : SourceLoc) : bool := Value a =? Value b.

(** The AST the tags point into: for the node at an address, the kind its
    class records (read by [classof]) and its positional accessors
    ([getStartLoc], [getEndLoc], [getLoc]).  The AST is owned elsewhere; a
    tag only borrows it. *)
Record ASTContext : Type := mkASTContext {
  nodeKind : pointer -> nat;
  nodeStartLoc : pointer -> SourceLoc;
  nodeEndLoc : pointer -> SourceLoc;
  nodeLoc : pointer -> SourceLoc;
  (** [ValueDecl::classof] and [PatternBindingDecl::classof], from
      [swift/AST/Decl.h]. *)
  ValueDecl_classof : nat -> bool;
  PatternBindingDecl_classof : nat -> bool
}.

(** ** [llvm::PointerUnion4<Stmt*, Expr*, Decl*, Pattern*>]

    The union ([llvm/ADT/PointerUnion.h]) is a pointer together with a
    discriminator saying which of the four pointer types it holds.  The
    default-constructed union holds a null pointer under discriminator 0,
    the first member type. *)
Record ASTNodeTy : Type := mkASTNode {
  tag : Family;
  ptr : pointer
}.

(** [PointerUnion4()] *)
Definition ASTNodeTy_default : ASTNodeTy := mkASTNode StmtF nullptr.

(** [isNull()]: the pointer held is null, whichever type it is. *)
Definition PU_isNull (N : ASTNodeTy) : bool := ptr N =? 0.

(** [is<F*>()]: the discriminator is the one of [F*]. *)
Definition PU_is (N : ASTNodeTy) (F : Family) : bool := Family_eqb (tag N) F.

(** [get<F*>()]: asserts [is<F*>()]. *)
Definition PU_get (N : ASTNodeTy) (F : Family) : result pointer :=
  _ <- assertion (PU_is N F) ;; Ret (ptr N).

(** [dyn_cast<F*>()]: the pointer when [is<F*>()], else a null [F*]. *)
Definition PU_dyn_cast (N : ASTNodeTy) (F : Family) : result pointer :=
  if PU_is N F then PU_get N F else Ret nullptr.

(** [getOpaqueValue()]: the discriminator is packed into the spare low bits
    of the pointer, so two opaque values are equal exactly when discriminator
    and pointer are; the packed word is kept as the pair. *)
Definition PU_getOpaqueValue (N : ASTNodeTy) : Z * Z :=
  (Family_index (tag N), ptr N).

Definition opaque_eqb (a b : Z * Z) : bool :=
  (fst a =? fst b) && (snd a =? snd b).

(** ** LLVM-style casts ([llvm/Support/Casting.h]) within one family *)

Section Casting.

Variable ast : ASTContext.

(** [isa<T>(p)]: asserts that [p] is not null, then asks [T::classof]. *)
Definition isa (T : ASTType) (p : pointer) : result bool :=
  _ <- assertion (negb (p =? 0)) ;; Ret (classof T (nodeKind ast p)).

(** [cast<T>(p)]: asserts [isa<T>(p)]. *)
Definition cast (T : ASTType) (p : pointer) : result pointer :=
  b <- isa T p ;; _ <- assertion b ;; Ret p.

(** [dyn_cast<T>(p)] *)
Definition dyn_cast (T : ASTType) (p : pointer) : result pointer :=
  b <- isa T p ;; if b then cast T p else Ret nullptr.

(** [dyn_cast_or_null<T>(p)] *)
Definition dyn_cast_or_null (T : ASTType) (p : pointer) : result pointer :=
  if p =? 0 then Ret nullptr else dyn_cast T p.

End Casting.

(** ** The location tag *)

Inductive LocationKind : Type :=
| NoneKind
| RegularKind
| ReturnKind
| ImplicitReturnKind
| InlinedKind
| MandatoryInlinedKind
| CleanupKind
| ArtificialUnreachableKind
| SILFileKind.

(** The enumerators' values. *)
Definition LocationKind_val (K : LocationKind) : Z :=
  match K with
  | NoneKind => 0
  | RegularKind => 1
  | ReturnKind => 2
  | ImplicitReturnKind => 3
  | InlinedKind => 4
  | MandatoryInlinedKind => 5
  | CleanupKind => 6
  | ArtificialUnreachableKind => 7
  | SILFileKind => 8
  end.

Definition BaseBits : Z := 4.
Definition BaseMask : Z := 0xF.
Definition AutoGeneratedBit : Z := 5.
Definition PointsToStartBit : Z := 6.
Definition PointsToEndBit : Z := 7.
Definition IsInTopLevel : Z := 8.
Definition IsInPrologue : Z := 9.

(** [unsigned] is 32 bits wide. *)
Definition unsigned_modulus : Z := 2 ^ 32.

Definition to_unsigned (z : Z) : Z := z mod unsigned_modulus.

Record SILLocation : Type := mkSILLocation {
  ASTNode : ASTNodeTy;
  SILFileSourceLoc : SourceLoc;
  KindData : Z
}.

(** The protected constructors. *)

(** [SILLocation(LocationKind K)] *)
Definition SILLocation_K (K : LocationKind) : SILLocation :=
  mkSILLocation ASTNodeTy_default SourceLoc_default (LocationKind_val K).

(** [SILLocation(F *N, LocationKind K)] for the four families. *)
Definition SILLocation_NK (F : Family) (N : pointer) (K : LocationKind)
  : SILLocation :=
  mkSILLocation (mkASTNode F N) SourceLoc_default (LocationKind_val K).

(** [SILLocation(LocationKind K, unsigned Flags)] *)
Definition SILLocation_KF (K : LocationKind) (Flags : Z) : SILLocation :=
  mkSILLocation ASTNodeTy_default SourceLoc_default
    (Z.lor (LocationKind_val K) Flags).

(** [SILLocation(F *N, LocationKind K, unsigned Flags)] *)
Definition SILLocation_NKF (F : Family) (N : pointer) (K : LocationKind)
    (Flags : Z) : SILLocation :=
  mkSILLocation (mkASTNode F N) SourceLoc_default
    (Z.lor (LocationKind_val K) Flags).

(** The public converting constructors [SILLocation(F *N)]. *)
Definition SILLocation_N (F : Family) (N : pointer) : SILLocation :=
  mkSILLocation (mkASTNode F N) SourceLoc_default
    (LocationKind_val RegularKind).

(** [void setKind(LocationKind K) { KindData |= (K & BaseMask); }] *)
Definition setKind (K : LocationKind) (L : SILLocation) : SILLocation :=
  mkSILLocation (ASTNode L) (SILFileSourceLoc L)
    (Z.lor (KindData L) (Z.land (LocationKind_val K) BaseMask)).

(** [unsigned getSpecialFlags() const { return unsigned(KindData) & ~BaseMask; }] *)
Definition getSpecialFlags (L : SILLocation) : Z :=
  Z.land (KindData L) (to_unsigned (Z.lnot BaseMask)).

Definition isNull (L : SILLocation) : bool :=
  PU_isNull (ASTNode L) && SourceLoc_isInvalid (SILFileSourceLoc L).

(** [operator bool] *)
Definition toBool (L : SILLocation) : bool := negb (isNull L).

(** The conversion of an [unsigned] to [bool]. *)
Definition nonzero (z : Z) : bool := negb (z =? 0).

Definition markAutoGenerated (L : SILLocation) : SILLocation :=
  mkSILLocation (ASTNode L) (SILFileSourceLoc L)
    (Z.lor (KindData L) (Z.shiftl 1 AutoGeneratedBit)).

Definition isAutoGenerated (L : SILLocation) : bool :=
  nonzero (Z.land (KindData L) (Z.shiftl 1 AutoGeneratedBit)).

Definition pointToStart (L : SILLocation) : SILLocation :=
  mkSILLocation (ASTNode L) (SILFileSourceLoc L)
    (Z.lor (KindData L) (Z.shiftl 1 PointsToStartBit)).

Definition pointToEnd (L : SILLocation) : SILLocation :=
  mkSILLocation (ASTNode L) (SILFileSourceLoc L)
    (Z.lor (KindData L) (Z.shiftl 1 PointsToEndBit)).

Definition markAsInTopLevel (L : SILLocation) : SILLocation :=
  mkSILLocation (ASTNode L) (SILFileSourceLoc L)
    (Z.lor (KindData L) (Z.shiftl 1 IsInTopLevel)).

Definition isInTopLevel (L : SILLocation) : bool :=
  nonzero (Z.land (KindData L) (Z.shiftl 1 IsInTopLevel)).

Definition markAsPrologue (L : SILLocation) : SILLocation :=
  mkSILLocation (ASTNode L) (SILFileSourceLoc L)
    (Z.lor (KindData L) (Z.shiftl 1 IsInPrologue)).

Definition isInPrologue (L : SILLocation) : bool :=
  nonzero (Z.land (KindData L) (Z.shiftl 1 IsInPrologue)).

Definition hasASTLocation (L : SILLocation) : bool :=
  negb (PU_isNull (ASTNode L)).

Definition alwaysPointsToStart (L : SILLocation) : bool :=
  nonzero (Z.land (KindData L) (Z.shiftl 1 PointsToStartBit)).

Definition alwaysPointsToEnd (L : SILLocation) : bool :=
  nonzero (Z.land (KindData L) (Z.shiftl 1 PointsToEndBit)).

(** [getKind()]: the cast to [LocationKind] keeps the masked value, which
    need not be one of the enumerators. *)
Definition getKind (L : SILLocation) : Z := Z.land (KindData L) BaseMask.

(** [operator==] *)
Definition SILLocation_eqb (L R : SILLocation) : bool :=
  (KindData L =? KindData R)
  && opaque_eqb (PU_getOpaqueValue (ASTNode L)) (PU_getOpaqueValue (ASTNode R))
  && SourceLoc_eqb (SILFileSourceLoc L) (SILFileSourceLoc R).

(** The invariant of [KindData]: an [unsigned] whose only bits are the four
    kind bits and the five flag bits. *)
Definition KindDataMask : Z := 0x3EF.

Definition wellFormed (L : SILLocation) : Prop :=
  Z.land (KindData L) KindDataMask = KindData L.

(** ** Narrowing to a node type *)

Section Nodes.

Variable ast : ASTContext.

(** [getNodeAs<T>(Node)] *)
Definition getNodeAs (T : ASTType) (L : SILLocation) (Node : ASTNodeTy)
  : result pointer :=
  p <- PU_dyn_cast Node (base_type T) ;; dyn_cast_or_null ast T p.

(** [isNode<T>(Node)]: the family test reads the member [ASTNode], the
    pointer is taken from the argument. *)
Definition isNode (T : ASTType) (L : SILLocation) (Node : ASTNodeTy)
  : result bool :=
  if PU_is (ASTNode L) (base_type T)
  then p <- PU_get Node (base_type T) ;; isa ast T p
  else Ret false.

(** [castNodeTo<T>(Node)] *)
Definition castNodeTo (T : ASTType) (L : SILLocation) (Node : ASTNodeTy)
  : result pointer :=
  p <- PU_get Node (base_type T) ;; cast ast T p.

Definition getAsASTNode (T : ASTType) (L : SILLocation) : result pointer :=
  getNodeAs T L (ASTNode L).

Definition isASTNode (T : ASTType) (L : SILLocation) : result bool :=
  isNode T L (ASTNode L).

Definition castToASTNode (T : ASTType) (L : SILLocation) : result pointer :=
  castNodeTo T L (ASTNode L).

(** The node types [getImplicitReturnLoc] asks for.  [isa<Expr>] on an
    [Expr*] is an upcast, which holds of every node. *)
Definition Expr : ASTType := mkASTType ExprF (fun _ => true).

Definition ValueDecl : ASTType := mkASTType DeclF (ValueDecl_classof ast).

Definition PatternBindingDecl : ASTType :=
  mkASTType DeclF (PatternBindingDecl_classof ast).

(** The condition asserted by [getImplicitReturnLoc]. *)
Definition implicitReturnPre (L : SILLocation) : result bool :=
  orElse (isASTNode Expr L)
    (orElse (isASTNode ValueDecl L)
       (orElse (isASTNode PatternBindingDecl L)
          (Ret (isNull L && isInTopLevel L)))).

(** [ImplicitReturnLocation::getImplicitReturnLoc(L)] *)
Definition getImplicitReturnLoc (L : SILLocation) : result SILLocation :=
  c <- implicitReturnPre L ;;
  _ <- assertion c ;;
  Ret (setKind ImplicitReturnKind L).

(** ** Position resolution *)

(** Modelled from the spec: [getSourceLoc], [getStartSourceLoc] and
    [getEndSourceLoc] are declared in this header and defined elsewhere.
    With a node present they delegate to the node's own accessors,
    overridden by PointsToStart and PointsToEnd (when set, the node's start
    respectively end is returned); with no node the stored raw position is
    returned.  The spec does not say which override wins on a tag that has
    both; they are tried in the order it names them. *)
Definition resolveLoc (L : SILLocation) (own : pointer -> SourceLoc)
  : SourceLoc :=
  if PU_isNull (ASTNode L) then SILFileSourceLoc L
  else if alwaysPointsToStart L then nodeStartLoc ast (ptr (ASTNode L))
  else if alwaysPointsToEnd L then nodeEndLoc ast (ptr (ASTNode L))
  else own (ptr (ASTNode L)).

(** Modelled from the spec: [getSourceLoc()], declared here only; the
    node's own accessor is its representative position. *)
Definition getSourceLoc (L : SILLocation) : SourceLoc :=
  resolveLoc L (nodeLoc ast).

(** Modelled from the spec: [getStartSourceLoc()], declared here only. *)
Definition getStartSourceLoc (L : SILLocation) : SourceLoc :=
  resolveLoc L (nodeStartLoc ast).

(** Modelled from the spec: [getEndSourceLoc()], declared here only. *)
Definition getEndSourceLoc (L : SILLocation) : SourceLoc :=
  resolveLoc L (nodeEndLoc ast).

(** [getSourceRange()] *)
Definition getSourceRange (L : SILLocation) : SourceLoc * SourceLoc :=
  (getStartSourceLoc L, getEndSourceLoc L).

End Nodes.

(** ** The kind-specific views

    A view adds no storage: a value of a view class is a [SILLocation]. *)

Inductive View : Type :=
| RegularLocation
| ReturnLocation
| ImplicitReturnLocation
| InlinedLocation
| MandatoryInlinedLocation
| CleanupLocation
| ArtificialUnreachableLocation
| SILFileLocation.

(** The kind each view is designated for. *)
Definition View_kind (V : View) : LocationKind :=
  match V with
  | RegularLocation => RegularKind
  | ReturnLocation => ReturnKind
  | ImplicitReturnLocation => ImplicitReturnKind
  | InlinedLocation => InlinedKind
  | MandatoryInlinedLocation => MandatoryInlinedKind
  | CleanupLocation => CleanupKind
  | ArtificialUnreachableLocation => ArtificialUnreachableKind
  | SILFileLocation => SILFileKind
  end.

(** [T::isKind(L)], class by class. *)
Definition isKind (V : View) (L : SILLocation) : bool :=
  match V with
  | RegularLocation => getKind L =? LocationKind_val RegularKind
  | ReturnLocation => getKind L =? LocationKind_val ReturnKind
  | ImplicitReturnLocation => getKind L =? LocationKind_val ImplicitReturnKind
  | InlinedLocation => getKind L =? LocationKind_val InlinedKind
  | MandatoryInlinedLocation =>
      getKind L =? LocationKind_val MandatoryInlinedKind
  | CleanupLocation => getKind L =? LocationKind_val CleanupKind
  | ArtificialUnreachableLocation =>
      getKind L =? LocationKind_val ArtificialUnreachableKind
  | SILFileLocation => getKind L =? LocationKind_val SILFileKind
  end.

(** The default constructor [T()] of each view, which [castTo] and [getAs]
    use for the value they then assign to. *)
Definition View_default (V : View) : SILLocation :=
  match V with
  | RegularLocation => SILLocation_K RegularKind
  | ReturnLocation => SILLocation_K ReturnKind
  | ImplicitReturnLocation => SILLocation_K ImplicitReturnKind
  | InlinedLocation => SILLocation_K InlinedKind
  | MandatoryInlinedLocation => SILLocation_K MandatoryInlinedKind
  | CleanupLocation => SILLocation_K CleanupKind
  | ArtificialUnreachableLocation => SILLocation_K ArtificialUnreachableKind
  | SILFileLocation => SILLocation_K SILFileKind
  end.

(** [tr = *this]: the implicit copy assignment, member by member. *)
Definition assign (t src : SILLocation) : SILLocation :=
  mkSILLocation (ASTNode src) (SILFileSourceLoc src) (KindData src).

(** [is<T>()] *)
Definition is_ (V : View) (L : SILLocation) : bool := isKind V L.

(** [castTo<T>()] *)
Definition castTo (V : View) (L : SILLocation) : result SILLocation :=
  _ <- assertion (isKind V L) ;;
  Ret (assign (View_default V) L).

(** [getAs<T>()]: [Optional<T>] is an [option]. *)
Definition getAs (V : View) (L : SILLocation) : option SILLocation :=
  if negb (isKind V L) then None
  else Some (assign (View_default V) L).

(** The public constructors and factories used below. *)

(** [RegularLocation(F *N)] *)
Definition RegularLocation_N (F : Family) (N : pointer) : SILLocation :=
  SILLocation_NK F N RegularKind.

(** [RegularLocation::getModuleLocation()] *)
Definition getModuleLocation : SILLocation :=
  markAsInTopLevel (SILLocation_K RegularKind).

(** [RegularLocation::getAutoGeneratedLocation()] *)
Definition getAutoGeneratedLocation : SILLocation :=
  markAutoGenerated (SILLocation_K RegularKind).

(** [InlinedLocation(Expr *CallSite)] and its siblings. *)
Definition InlinedLocation_N (F : Family) (N : pointer) : SILLocation :=
  SILLocation_NK F N InlinedKind.

(** [CleanupLocation(F *N)] *)
Definition CleanupLocation_N (F : Family) (N : pointer) : SILLocation :=
  SILLocation_NK F N CleanupKind.

(** [CleanupLocation::getModuleCleanupLocation()] *)
Definition getModuleCleanupLocation : SILLocation :=
  markAsInTopLevel (SILLocation_K CleanupKind).

(** [ArtificialUnreachableLocation()] *)
Definition ArtificialUnreachableLocation_new : SILLocation :=
  SILLocation_K ArtificialUnreachableKind.

(** [SILFileLocation(SourceLoc L)]: the constructor body stores [L]. *)
Definition SILFileLocation_new (Loc : SourceLoc) : SILLocation :=
  let this := SILLocation_K SILFileKind in
  mkSILLocation (ASTNode this) Loc (KindData this).

(** ** The flag mutators as operations *)

Inductive Setter : Type :=
| MarkAutoGenerated
| PointToStart
| PointToEnd
| MarkAsInTopLevel
| MarkAsPrologue.

Definition Setter_bit (s : Setter) : Z :=
  match s with
  | MarkAutoGenerated => AutoGeneratedBit
  | PointToStart => PointsToStartBit
  | PointToEnd => PointsToEndBit
  | MarkAsInTopLevel => IsInTopLevel
  | MarkAsPrologue => IsInPrologue
  end.

Definition applySetter (s : Setter) (L : SILLocation) : SILLocation :=
  match s with
  | MarkAutoGenerated => markAutoGenerated L
  | PointToStart => pointToStart L
  | PointToEnd => pointToEnd L
  | MarkAsInTopLevel => markAsInTopLevel L
  | MarkAsPrologue => markAsPrologue L
  end.

(** The flag each mutator is read back with. *)
Definition readFlag (s : Setter) (L : SILLocation) : bool :=
  match s with
  | MarkAutoGenerated => isAutoGenerated L
  | PointToStart => alwaysPointsToStart L
  | PointToEnd => alwaysPointsToEnd L
  | MarkAsInTopLevel => isInTopLevel L
  | MarkAsPrologue => isInPrologue L
  end.

(** A sequence of mutator calls, first call first. *)
Fixpoint runSetters (ss : list Setter) (L : SILLocation) : SILLocation :=
  match ss with
  | [] => L
  | s :: rest => runSetters rest (applySetter s L)
  end.

(** ** A small AST to run the operations on

    Every node is of kind 0; the node at address [p] starts at offset
    [p + 1], ends at [p + 9] and reports [p + 3] as its own position.  Kind 0
    is neither a [ValueDecl] nor a [PatternBindingDecl]. *)
Definition exampleAST : ASTContext :=
  mkASTContext
    (fun _ => 0%nat)
    (fun p => mkSourceLoc (p + 1))
    (fun p => mkSourceLoc (p + 9))
    (fun p => mkSourceLoc (p + 3))
    (fun _ => false)
    (fun _ => false).

(** A statement type, as [ReturnStmt] is: the [Stmt] family with some
    [classof]. *)
Definition stmtType (c : nat -> bool) : ASTType := mkASTType StmtF c.

(** ** File locations and the node accessors of the views *)

(** [InlinedLocation(SourceLoc L)]: the constructor body stores [L]. *)
Definition InlinedLocation_Loc (Loc : SourceLoc) : SILLocation :=
  let this := SILLocation_K InlinedKind in
  mkSILLocation (ASTNode this) Loc (KindData this).

(** [InlinedLocation(SourceLoc L, unsigned F)] *)
Definition InlinedLocation_LocF (Loc : SourceLoc) (F : Z) : SILLocation :=
  let this := SILLocation_KF InlinedKind F in
  mkSILLocation (ASTNode this) Loc (KindData this).

(** [MandatoryInlinedLocation(SourceLoc L)] *)
Definition MandatoryInlinedLocation_Loc (Loc : SourceLoc) : SILLocation :=
  let this := SILLocation_K MandatoryInlinedKind in
  mkSILLocation (ASTNode this) Loc (KindData this).

(** [MandatoryInlinedLocation(SourceLoc L, unsigned F)] *)
Definition MandatoryInlinedLocation_LocF (Loc : SourceLoc) (F : Z)
  : SILLocation :=
  let this := SILLocation_KF MandatoryInlinedKind F in
  mkSILLocation (ASTNode this) Loc (KindData this).

(** [InlinedLocation::getFileLocation()] and
    [MandatoryInlinedLocation::getFileLocation()], which have the same body:
    [assert(ASTNode.isNull()); return SILFileSourceLoc;] *)
Definition InlinedLocation_getFileLocation (L : SILLocation)
  : result SourceLoc :=
  _ <- assertion (PU_isNull (ASTNode L)) ;; Ret (SILFileSourceLoc L).

Definition MandatoryInlinedLocation_getFileLocation (L : SILLocation)
  : result SourceLoc :=
  _ <- assertion (PU_isNull (ASTNode L)) ;; Ret (SILFileSourceLoc L).


(** [ReturnLocation(ReturnStmt *RS)] and [ReturnLocation(BraceStmt *BS)]:
    both store a statement pointer. *)
Definition ReturnLocation_N (S : pointer) : SILLocation :=
  SILLocation_NK StmtF S ReturnKind.

(** [ImplicitReturnLocation(AbstractClosureExpr *E)],
    [ImplicitReturnLocation(ReturnStmt *S)] and
    [ImplicitReturnLocation(AbstractFunctionDecl *AFD)], by the family of the
    pointer. *)
Definition ImplicitReturnLocation_N (F : Family) (N : pointer) : SILLocation :=
  SILLocation_NK F N ImplicitReturnKind.

(** An expression type, as [AbstractClosureExpr] is. *)
Definition exprType (c : nat -> bool) : ASTType := mkASTType ExprF c.

(** [ReturnLocation::get()]: [castToASTNode<ReturnStmt>()], with
    [ReturnStmt::classof] as [c]. *)
Definition ReturnLocation_get (ast : ASTContext) (c : nat -> bool)
    (L : SILLocation) : result pointer :=
  castToASTNode ast (stmtType c) L.

(** [ImplicitReturnLocation::get()]: [castToASTNode<AbstractClosureExpr>()],
    with [AbstractClosureExpr::classof] as [c]. *)
Definition ImplicitReturnLocation_get (ast : ASTContext) (c : nat -> bool)
    (L : SILLocation) : result pointer :=
  castToASTNode ast (exprType c) L.

(** [RegularLocation::getAs<T>()], [is<T>()] and [castTo<T>()], which hide
    the view narrowings of the base class behind node narrowings. *)
Definition RegularLocation_getAs (ast : ASTContext) (T : ASTType)
    (L : SILLocation) : result pointer :=
  getNodeAs ast T L (ASTNode L).

Definition RegularLocation_is (ast : ASTContext) (T : ASTType)
    (L : SILLocation) : result bool :=
  isNode ast T L (ASTNode L).

Definition RegularLocation_castTo (ast : ASTContext) (T : ASTType)
    (L : SILLocation) : result pointer :=
  castNodeTo ast T L (ASTNode L).

(** Whether a setter occurs in a sequence of calls. *)
Definition Setter_eqb (a b : Setter) : bool :=
  Setter_bit a =? Setter_bit b.

Definition calls (s : Setter) (ss : list Setter) : bool :=
  existsb (Setter_eqb s) ss.

(** * Properties *)

(** ** Bits of [KindData] *)

Lemma land_pow2 (k b : Z) :
  0 <= b -> Z.land k (2 ^ b) = if Z.testbit k b then 2 ^ b else 0.
Proof.
  intros Hb. apply Z.bits_inj'. intros n Hn.
  rewrite Z.land_spec, Z.pow2_bits_eqb by assumption.
  destruct (Z.eqb_spec b n) as [->|Hne].
  - destruct (Z.testbit k n); simpl.
    + now rewrite Z.pow2_bits_true.
    + now rewrite Z.bits_0.
  - rewrite andb_false_r.
    destruct (Z.testbit k b).
    + rewrite Z.pow2_bits_false; auto.
    + now rewrite Z.bits_0.
Qed.

Lemma nonzero_flag (k b : Z) :
  0 <= b -> nonzero (Z.land k (Z.shiftl 1 b)) = Z.testbit k b.
Proof.
  intros Hb. unfold nonzero.
  rewrite Z.shiftl_1_l, land_pow2 by assumption.
  destruct (Z.testbit k b); simpl.
  - assert (0 < 2 ^ b) by (apply Z.pow_pos_nonneg; lia).
    destruct (Z.eqb_spec (2 ^ b) 0); [lia | reflexivity].
  - reflexivity.
Qed.

Lemma testbit_set_flag (k b i : Z) :
  0 <= b -> 0 <= i ->
  Z.testbit (Z.lor k (Z.shiftl 1 b)) i = Z.testbit k i || (b =? i).
Proof.
  intros Hb Hi.
  now rewrite Z.lor_spec, Z.shiftl_1_l, Z.pow2_bits_eqb.
Qed.

Lemma testbit_BaseMask (i : Z) :
  0 <= i -> Z.testbit BaseMask i = (i <? 4).
Proof.
  intros Hi. change BaseMask with (Z.ones 4).
  destruct (Z.ltb_spec i 4).
  - apply Z.ones_spec_low; lia.
  - apply Z.ones_spec_high; lia.
Qed.

Lemma Setter_bit_range (s : Setter) : 5 <= Setter_bit s <= 9.
Proof. destruct s; cbv; split; congruence. Qed.

Lemma Setter_bit_inj (s s' : Setter) : Setter_bit s = Setter_bit s' -> s = s'.
Proof. destruct s, s'; cbv; congruence. Qed.

Lemma KindData_applySetter (s : Setter) (L : SILLocation) :
  KindData (applySetter s L) = Z.lor (KindData L) (Z.shiftl 1 (Setter_bit s)).
Proof. destruct s; reflexivity. Qed.

Lemma ASTNode_applySetter (s : Setter) (L : SILLocation) :
  ASTNode (applySetter s L) = ASTNode L.
Proof. destruct s; reflexivity. Qed.

Lemma SILFileSourceLoc_applySetter (s : Setter) (L : SILLocation) :
  SILFileSourceLoc (applySetter s L) = SILFileSourceLoc L.
Proof. destruct s; reflexivity. Qed.

Lemma readFlag_testbit (s : Setter) (L : SILLocation) :
  readFlag s L = Z.testbit (KindData L) (Setter_bit s).
Proof. destruct s; apply nonzero_flag; cbv; congruence. Qed.

(** Setting a bit above the kind bits leaves the kind as it is. *)
Lemma land_BaseMask_set_flag (k b : Z) :
  4 <= b -> Z.land (Z.lor k (Z.shiftl 1 b)) BaseMask = Z.land k BaseMask.
Proof.
  intros Hb. apply Z.bits_inj'. intros n Hn.
  rewrite !Z.land_spec, testbit_set_flag, testbit_BaseMask by lia.
  destruct (Z.ltb_spec n 4); [|now rewrite !andb_false_r].
  destruct (Z.eqb_spec b n); [lia|].
  now rewrite orb_false_r.
Qed.

Lemma getKind_applySetter (s : Setter) (L : SILLocation) :
  getKind (applySetter s L) = getKind L.
Proof.
  unfold getKind. rewrite KindData_applySetter.
  apply land_BaseMask_set_flag. pose proof (Setter_bit_range s). lia.
Qed.

Lemma readFlag_applySetter (s s' : Setter) (L : SILLocation) :
  readFlag s' (applySetter s L)
  = readFlag s' L || (Setter_bit s =? Setter_bit s').
Proof.
  rewrite !readFlag_testbit, KindData_applySetter.
  pose proof (Setter_bit_range s). pose proof (Setter_bit_range s').
  apply testbit_set_flag; lia.
Qed.

Lemma applySetter_idem (s : Setter) (L : SILLocation) :
  applySetter s (applySetter s L) = applySetter s L.
Proof.
  destruct L as [N P K].
  destruct s;
    unfold applySetter, markAutoGenerated, pointToStart, pointToEnd,
      markAsInTopLevel, markAsPrologue;
    cbn [ASTNode SILFileSourceLoc KindData]; f_equal;
    now rewrite <- Z.lor_assoc, Z.lor_diag.
Qed.

Lemma getKind_runSetters (ss : list Setter) (L : SILLocation) :
  getKind (runSetters ss L) = getKind L.
Proof.
  revert L. induction ss as [|s rest IH]; intros L; simpl.
  - reflexivity.
  - now rewrite IH, getKind_applySetter.
Qed.

Lemma LocationKind_val_masked (K : LocationKind) :
  Z.land (LocationKind_val K) BaseMask = LocationKind_val K.
Proof. destruct K; reflexivity. Qed.

Lemma isKind_spec (V : View) (L : SILLocation) :
  isKind V L = (getKind L =? LocationKind_val (View_kind V)).
Proof. destruct V; reflexivity. Qed.

(** ** Null tags *)

Lemma isNull_runSetters (ss : list Setter) (L : SILLocation) :
  isNull (runSetters ss L) = isNull L.
Proof.
  revert L. induction ss as [|s rest IH]; intros L; simpl.
  - reflexivity.
  - rewrite IH. unfold isNull.
    now rewrite ASTNode_applySetter, SILFileSourceLoc_applySetter.
Qed.

(** C5. [isNull()] is true exactly when the node reference is empty and the
    raw textual position is invalid; the kind and the flags, that is the
    whole of [KindData], have no part in it. *)
Theorem isNull_iff_no_node_no_position (L : SILLocation) :
  (isNull L = true <->
   PU_isNull (ASTNode L) = true
   /\ SourceLoc_isInvalid (SILFileSourceLoc L) = true)
  /\ (forall K : Z,
        isNull (mkSILLocation (ASTNode L) (SILFileSourceLoc L) K) = isNull L)
  /\ (forall ss : list Setter, isNull (runSetters ss L) = isNull L).
Proof.
  split; [|split].
  - unfold isNull. apply andb_true_iff.
  - reflexivity.
  - intros ss. apply isNull_runSetters.
Qed.

(** ** Views and their kinds *)

(** C3. For each of the eight views [V], [is<V>()] holds exactly when
    [getKind()] is the kind designated for [V], and [getAs<V>()] is
    non-empty exactly when [is<V>()] holds. *)
Theorem is_iff_kind_getAs_iff_is (V : View) (L : SILLocation) :
  (is_ V L = true <-> getKind L = LocationKind_val (View_kind V))
  /\ (getAs V L <> None <-> is_ V L = true).
Proof.
  unfold is_, getAs. rewrite isKind_spec. split.
  - apply Z.eqb_eq.
  - destruct (getKind L =? LocationKind_val (View_kind V)); simpl; split;
      congruence.
Qed.

(** ** Flag mutators *)

(** C4. Each of the five flag setters ORs exactly one bit into [KindData]
    (its own flag, which then reads true), is idempotent, never clears a bit
    or a flag that was set, and leaves every other flag, every other bit, the
    kind, the node reference and the raw position as they were. *)
Theorem flag_setters_one_bit_idempotent_monotonic
    (s : Setter) (L : SILLocation) :
  KindData (applySetter s L) = Z.lor (KindData L) (2 ^ Setter_bit s)
  /\ readFlag s (applySetter s L) = true
  /\ applySetter s (applySetter s L) = applySetter s L
  /\ (forall i : Z,
        Z.testbit (KindData L) i = true ->
        Z.testbit (KindData (applySetter s L)) i = true)
  /\ (forall s' : Setter,
        readFlag s' L = true -> readFlag s' (applySetter s L) = true)
  /\ (forall i : Z,
        i <> Setter_bit s ->
        Z.testbit (KindData (applySetter s L)) i = Z.testbit (KindData L) i)
  /\ (forall s' : Setter,
        s' <> s -> readFlag s' (applySetter s L) = readFlag s' L)
  /\ getKind (applySetter s L) = getKind L
  /\ ASTNode (applySetter s L) = ASTNode L
  /\ SILFileSourceLoc (applySetter s L) = SILFileSourceLoc L.
Proof.
  pose proof (Setter_bit_range s) as Hs.
  repeat split.
  - rewrite KindData_applySetter, Z.shiftl_1_l. reflexivity.
  - rewrite readFlag_applySetter, Z.eqb_refl. apply orb_true_r.
  - apply applySetter_idem.
  - intros i Hi. rewrite KindData_applySetter, Z.lor_spec, Hi. reflexivity.
  - intros s' Hs'. rewrite readFlag_applySetter, Hs'. reflexivity.
  - intros i Hi. rewrite KindData_applySetter.
    destruct (Z.ltb_spec i 0) as [Hneg|Hpos].
    + now rewrite !Z.testbit_neg_r.
    + rewrite testbit_set_flag by lia.
      destruct (Z.eqb_spec (Setter_bit s) i); [congruence|].
      apply orb_false_r.
  - intros s' Hne. rewrite readFlag_applySetter.
    destruct (Z.eqb_spec (Setter_bit s) (Setter_bit s')) as [E|E].
    + apply Setter_bit_inj in E. congruence.
    + apply orb_false_r.
  - apply getKind_applySetter.
  - apply ASTNode_applySetter.
  - apply SILFileSourceLoc_applySetter.
Qed.

Lemma flag_setters_witness :
  readFlag MarkAutoGenerated
    (applySetter PointToEnd (markAutoGenerated (SILLocation_N ExprF 16)))
  = true
  /\ readFlag MarkAsPrologue
       (applySetter PointToEnd (markAutoGenerated (SILLocation_N ExprF 16)))
     = readFlag MarkAsPrologue (markAutoGenerated (SILLocation_N ExprF 16))
  /\ Z.testbit
       (KindData
          (applySetter PointToEnd
             (markAutoGenerated (SILLocation_N ExprF 16)))) 0
     = true.
Proof.
  destruct (flag_setters_one_bit_idempotent_monotonic PointToEnd
              (markAutoGenerated (SILLocation_N ExprF 16)))
    as (_ & _ & _ & Hbit & Hmono & _ & Hother & _).
  split; [|split].
  - apply Hmono. reflexivity.
  - apply Hother. discriminate.
  - apply Hbit. reflexivity.
Defined.

(** ** The kind is fixed *)

(** C9. The kind stored at construction is what [getKind()] returns after
    any sequence of flag-setter calls: the setters never touch the kind
    bits, whatever tag they are applied to. *)
Theorem kind_unchanged_by_flag_setters
    (ss : list Setter) (L : SILLocation) (K : LocationKind)
    (F : Family) (N : pointer) :
  getKind (runSetters ss L) = getKind L
  /\ getKind (runSetters ss (SILLocation_K K)) = LocationKind_val K
  /\ getKind (runSetters ss (SILLocation_NK F N K)) = LocationKind_val K
  /\ getKind (runSetters ss (SILLocation_N F N)) = LocationKind_val RegularKind.
Proof.
  rewrite !getKind_runSetters. repeat split.
  - apply LocationKind_val_masked.
  - apply LocationKind_val_masked.
Qed.

(** ** Equality *)

Lemma Family_index_inj (a b : Family) : Family_index a = Family_index b -> a = b.
Proof. destruct a, b; cbv; congruence. Qed.

Lemma opaque_eqb_eq (M N : ASTNodeTy) :
  opaque_eqb (PU_getOpaqueValue M) (PU_getOpaqueValue N) = true <-> M = N.
Proof.
  destruct M as [t p], N as [t' p']. unfold opaque_eqb, PU_getOpaqueValue.
  cbn [fst snd tag ptr].
  rewrite andb_true_iff, !Z.eqb_eq. split.
  - intros [Ht Hp]. apply Family_index_inj in Ht. congruence.
  - intros E. injection E as -> ->. auto.
Qed.

Lemma SourceLoc_eqb_eq (a b : SourceLoc) : SourceLoc_eqb a b = true <-> a = b.
Proof.
  destruct a as [x], b as [y]. unfold SourceLoc_eqb. cbn [Value].
  rewrite Z.eqb_eq. split; congruence.
Qed.

(** [operator==] decides equality of the three stored members. *)
Lemma SILLocation_eqb_eq (L R : SILLocation) :
  SILLocation_eqb L R = true <-> L = R.
Proof.
  destruct L as [N P K], R as [N' P' K']. unfold SILLocation_eqb.
  cbn [ASTNode SILFileSourceLoc KindData].
  rewrite !andb_true_iff, Z.eqb_eq, opaque_eqb_eq, SourceLoc_eqb_eq.
  split.
  - intros [[-> ->] ->]. reflexivity.
  - intros E. injection E as -> -> ->. auto.
Qed.

Lemma SILLocation_eqb_neq (L R : SILLocation) :
  SILLocation_eqb L R = false <-> L <> R.
Proof.
  rewrite <- SILLocation_eqb_eq. destruct (SILLocation_eqb L R); split;
    congruence.
Qed.

Lemma testbit_KindDataMask (n : Z) :
  0 <= n ->
  Z.testbit KindDataMask n = (n <? 4) || ((5 <=? n) && (n <=? 9)).
Proof.
  intros Hn.
  change KindDataMask with (Z.lor BaseMask (Z.shiftl (Z.ones 5) 5)).
  rewrite Z.lor_spec, testbit_BaseMask, Z.shiftl_spec by assumption.
  f_equal.
  destruct (Z.leb_spec 5 n); destruct (Z.leb_spec n 9); simpl.
  - apply Z.ones_spec_low; lia.
  - apply Z.ones_spec_high; lia.
  - apply Z.testbit_neg_r; lia.
  - apply Z.testbit_neg_r; lia.
Qed.

(** A well-formed [KindData] is determined by the kind and the five flags. *)
Lemma KindData_determined (L R : SILLocation) :
  wellFormed L -> wellFormed R ->
  getKind L = getKind R ->
  (forall s : Setter, readFlag s L = readFlag s R) ->
  KindData L = KindData R.
Proof.
  unfold wellFormed, getKind. intros WL WR HK HF.
  apply Z.bits_inj'. intros n Hn.
  rewrite <- WL, <- WR, !Z.land_spec, testbit_KindDataMask by assumption.
  destruct (Z.ltb_spec n 4) as [Hlt|Hge]; simpl.
  - rewrite !andb_true_r.
    assert (Z.testbit (Z.land (KindData L) BaseMask) n
            = Z.testbit (Z.land (KindData R) BaseMask) n) as E
      by now rewrite HK.
    rewrite !Z.land_spec, testbit_BaseMask in E by assumption.
    destruct (Z.ltb_spec n 4); [|lia].
    now rewrite !andb_true_r in E.
  - destruct (Z.leb_spec 5 n); [|now rewrite !andb_false_r].
    destruct (Z.leb_spec n 9); [|now rewrite !andb_false_r].
    simpl. rewrite !andb_true_r.
    assert (n = 5 \/ n = 6 \/ n = 7 \/ n = 8 \/ n = 9) as Hc by lia.
    destruct Hc as [-> | [-> | [-> | [-> | ->]]]].
    + specialize (HF MarkAutoGenerated). now rewrite !readFlag_testbit in HF.
    + specialize (HF PointToStart). now rewrite !readFlag_testbit in HF.
    + specialize (HF PointToEnd). now rewrite !readFlag_testbit in HF.
    + specialize (HF MarkAsInTopLevel). now rewrite !readFlag_testbit in HF.
    + specialize (HF MarkAsPrologue). now rewrite !readFlag_testbit in HF.
Qed.

(** C7. [operator==] is reflexive, symmetric and transitive, and is true
    exactly when the two tags agree on the whole of [KindData], on the node
    reference, that is on the family the union holds and on the pointer
    (never on the node's contents), and on the raw position.  On tags whose
    [KindData] holds only kind and flag bits, agreeing on [KindData] is
    agreeing on the kind and on all five flags.  A difference in the kind, in
    a flag, in the family held, in the pointer or in the raw position makes
    it false. *)
Theorem equality_equivalence_and_memberwise :
  (forall L, SILLocation_eqb L L = true)
  /\ (forall L R, SILLocation_eqb L R = true -> SILLocation_eqb R L = true)
  /\ (forall A B C,
        SILLocation_eqb A B = true -> SILLocation_eqb B C = true ->
        SILLocation_eqb A C = true)
  /\ (forall L R,
        SILLocation_eqb L R = true <->
        KindData L = KindData R
        /\ tag (ASTNode L) = tag (ASTNode R)
        /\ ptr (ASTNode L) = ptr (ASTNode R)
        /\ SILFileSourceLoc L = SILFileSourceLoc R)
  /\ (forall L R,
        wellFormed L -> wellFormed R ->
        (KindData L = KindData R <->
         getKind L = getKind R
         /\ (forall s : Setter, readFlag s L = readFlag s R)))
  /\ (forall L R, getKind L <> getKind R -> SILLocation_eqb L R = false)
  /\ (forall L R (s : Setter),
        readFlag s L <> readFlag s R -> SILLocation_eqb L R = false)
  /\ (forall L R,
        tag (ASTNode L) <> tag (ASTNode R) -> SILLocation_eqb L R = false)
  /\ (forall L R,
        ptr (ASTNode L) <> ptr (ASTNode R) -> SILLocation_eqb L R = false)
  /\ (forall L R,
        SILFileSourceLoc L <> SILFileSourceLoc R ->
        SILLocation_eqb L R = false)
  /\ (forall (F : Family) (p q : pointer) (K : LocationKind),
        p <> q ->
        SILLocation_eqb (SILLocation_NK F p K) (SILLocation_NK F q K) = false).
Proof.
  repeat match goal with |- _ /\ _ => split end.
  - intros L. now apply SILLocation_eqb_eq.
  - intros L R H. apply SILLocation_eqb_eq in H. now apply SILLocation_eqb_eq.
  - intros A B C H1 H2. apply SILLocation_eqb_eq in H1, H2.
    apply SILLocation_eqb_eq. congruence.
  - intros L R. rewrite SILLocation_eqb_eq. split.
    + intros ->. auto.
    + intros (HK & HT & HP & HS).
      destruct L as [[t p] S K], R as [[t' p'] S' K'].
      cbn in HK, HT, HP, HS. congruence.
  - intros L R WL WR. split.
    + intros HK. split.
      * unfold getKind. now rewrite HK.
      * intros s. rewrite !readFlag_testbit. now rewrite HK.
    + intros (HK & HF). now apply KindData_determined.
  - intros L R H. apply SILLocation_eqb_neq. congruence.
  - intros L R s H. apply SILLocation_eqb_neq. congruence.
  - intros L R H. apply SILLocation_eqb_neq. congruence.
  - intros L R H. apply SILLocation_eqb_neq. congruence.
  - intros L R H. apply SILLocation_eqb_neq. congruence.
  - intros F p q K H. apply SILLocation_eqb_neq.
    unfold SILLocation_NK. congruence.
Qed.

Lemma equality_memberwise_witness :
  SILLocation_eqb
    (pointToStart (markAsPrologue (SILLocation_N DeclF 32)))
    (markAsPrologue (pointToStart (RegularLocation_N DeclF 32))) = true
  /\ KindData (pointToStart (markAsPrologue (SILLocation_N DeclF 32)))
     = KindData (markAsPrologue (pointToStart (RegularLocation_N DeclF 32)))
  /\ SILLocation_eqb
       (SILLocation_N DeclF 32) (pointToStart (SILLocation_N DeclF 32))
     = false
  /\ SILLocation_eqb (SILLocation_N DeclF 32) (SILLocation_N DeclF 48) = false
  /\ SILLocation_eqb (SILLocation_N ExprF 0) (SILLocation_N StmtF 0) = false.
Proof.
  destruct equality_equivalence_and_memberwise
    as (_ & _ & _ & Hiff & Hwf & _ & Hflag & Htag & Hptr & _).
  assert (wellFormed (pointToStart (markAsPrologue (SILLocation_N DeclF 32))))
    as WL by reflexivity.
  assert (wellFormed
            (markAsPrologue (pointToStart (RegularLocation_N DeclF 32))))
    as WR by reflexivity.
  assert (KindData (pointToStart (markAsPrologue (SILLocation_N DeclF 32)))
          = KindData
              (markAsPrologue (pointToStart (RegularLocation_N DeclF 32))))
    as HK.
  { apply (proj2 (Hwf _ _ WL WR)). split; [reflexivity|].
    intros s. destruct s; reflexivity. }
  split; [|split; [|split; [|split]]].
  - apply (proj2 (Hiff _ _)). split; [exact HK|]. repeat split.
  - exact HK.
  - apply (Hflag _ _ PointToStart). discriminate.
  - apply Hptr. discriminate.
  - apply Htag. discriminate.
Defined.

(** C7 as worded, with the node reference compared by its pointer alone and
    the flag set read as the five flags, fails in both respects.  The tags
    built from a null [Expr*] and from a null [Stmt*] have [KindData] 1,
    no flag, the same (null) pointer and no raw position, and are not equal,
    because the union records the family.  The tags built for kind Regular
    with flag words 0 and 16 reference the same node, are of the same kind
    and read all five flags alike, and are not equal, because the whole of
    [KindData] is compared. *)
Lemma equality_not_by_pointer_and_five_flags :
  ~ (forall L R,
       SILLocation_eqb L R = true <->
       getKind L = getKind R
       /\ (forall s : Setter, readFlag s L = readFlag s R)
       /\ ptr (ASTNode L) = ptr (ASTNode R)
       /\ SILFileSourceLoc L = SILFileSourceLoc R)
  /\ ~ (forall L R,
          wellFormed L -> wellFormed R ->
          (SILLocation_eqb L R = true <->
           getKind L = getKind R
           /\ (forall s : Setter, readFlag s L = readFlag s R)
           /\ ptr (ASTNode L) = ptr (ASTNode R)
           /\ SILFileSourceLoc L = SILFileSourceLoc R))
  /\ ~ (forall L R,
          SILLocation_eqb L R = true <->
          getKind L = getKind R
          /\ (forall s : Setter, readFlag s L = readFlag s R)
          /\ ASTNode L = ASTNode R
          /\ SILFileSourceLoc L = SILFileSourceLoc R).
Proof.
  assert (SILLocation_eqb (SILLocation_N ExprF nullptr)
            (SILLocation_N StmtF nullptr) = false) as Hnull by reflexivity.
  assert (getKind (SILLocation_N ExprF nullptr)
          = getKind (SILLocation_N StmtF nullptr)
          /\ (forall s : Setter,
                readFlag s (SILLocation_N ExprF nullptr)
                = readFlag s (SILLocation_N StmtF nullptr))
          /\ ptr (ASTNode (SILLocation_N ExprF nullptr))
             = ptr (ASTNode (SILLocation_N StmtF nullptr))
          /\ SILFileSourceLoc (SILLocation_N ExprF nullptr)
             = SILFileSourceLoc (SILLocation_N StmtF nullptr)) as Hagree.
  { split; [reflexivity|]. split; [|split; reflexivity].
    intros s. destruct s; reflexivity. }
  split; [|split].
  - intros H. apply (proj2 (H _ _)) in Hagree. congruence.
  - intros H.
    assert (wellFormed (SILLocation_N ExprF nullptr)) as WL by reflexivity.
    assert (wellFormed (SILLocation_N StmtF nullptr)) as WR by reflexivity.
    apply (proj2 (H _ _ WL WR)) in Hagree. congruence.
  - intros H.
    destruct (H (SILLocation_KF RegularKind 0) (SILLocation_KF RegularKind 16))
      as [_ Hback].
    assert (SILLocation_eqb (SILLocation_KF RegularKind 0)
              (SILLocation_KF RegularKind 16) = true) as E.
    { apply Hback. split; [reflexivity|]. split; [|split; reflexivity].
      intros s. destruct s; reflexivity. }
    discriminate E.
Qed.

(** ** The invariant of [KindData] is kept *)

Lemma wellFormed_land (k m : Z) :
  Z.land k KindDataMask = k -> Z.land m KindDataMask = m ->
  Z.land (Z.lor k m) KindDataMask = Z.lor k m.
Proof. intros Hk Hm. now rewrite Z.land_lor_distr_l, Hk, Hm. Qed.

Lemma wellFormed_SILLocation_K (K : LocationKind) :
  wellFormed (SILLocation_K K).
Proof. destruct K; reflexivity. Qed.

Lemma wellFormed_SILLocation_NK (F : Family) (N : pointer) (K : LocationKind) :
  wellFormed (SILLocation_NK F N K).
Proof. destruct K; reflexivity. Qed.

Lemma wellFormed_getSpecialFlags (L : SILLocation) :
  wellFormed L -> Z.land (getSpecialFlags L) KindDataMask = getSpecialFlags L.
Proof.
  unfold wellFormed, getSpecialFlags. intros H.
  now rewrite <- Z.land_assoc, (Z.land_comm _ KindDataMask), Z.land_assoc, H.
Qed.

(** A tag derived with the flags of a well-formed one is well-formed. *)
Lemma wellFormed_SILLocation_NKF
    (F : Family) (N : pointer) (K : LocationKind) (L : SILLocation) :
  wellFormed L -> wellFormed (SILLocation_NKF F N K (getSpecialFlags L)).
Proof.
  intros H. unfold wellFormed, SILLocation_NKF. cbn [KindData].
  apply wellFormed_land.
  - destruct K; reflexivity.
  - now apply wellFormed_getSpecialFlags.
Qed.

Lemma wellFormed_applySetter (s : Setter) (L : SILLocation) :
  wellFormed L -> wellFormed (applySetter s L).
Proof.
  unfold wellFormed. intros H. rewrite KindData_applySetter.
  apply wellFormed_land; [assumption | destruct s; reflexivity].
Qed.

Lemma wellFormed_setKind (K : LocationKind) (L : SILLocation) :
  wellFormed L -> wellFormed (setKind K L).
Proof.
  unfold wellFormed, setKind. cbn [KindData]. intros H.
  apply wellFormed_land; [assumption | destruct K; reflexivity].
Qed.

(** ** Narrowing to a view *)

Lemma assign_eq (t src : SILLocation) : assign t src = src.
Proof. destruct src; reflexivity. Qed.

(** C8. The tag built by [ArtificialUnreachableLocation()] is null and of
    kind ArtificialUnreachable, also after flag setters; a tag of any other
    kind fails [is], gets an empty [getAs], and aborts in [castTo]. *)
Theorem artificial_unreachable_null_and_exclusive :
  isNull ArtificialUnreachableLocation_new = true
  /\ getKind ArtificialUnreachableLocation_new
     = LocationKind_val ArtificialUnreachableKind
  /\ (forall ss : list Setter,
        isNull (runSetters ss ArtificialUnreachableLocation_new) = true
        /\ getKind (runSetters ss ArtificialUnreachableLocation_new)
           = LocationKind_val ArtificialUnreachableKind)
  /\ (forall L : SILLocation,
        getKind L <> LocationKind_val ArtificialUnreachableKind ->
        is_ ArtificialUnreachableLocation L = false
        /\ getAs ArtificialUnreachableLocation L = None
        /\ castTo ArtificialUnreachableLocation L = Abort).
Proof.
  split; [reflexivity|]. split; [reflexivity|]. split.
  - intros ss. split.
    + now rewrite isNull_runSetters.
    + now rewrite getKind_runSetters.
  - intros L HK.
    assert (isKind ArtificialUnreachableLocation L = false) as E.
    { rewrite isKind_spec. now apply Z.eqb_neq. }
    unfold is_, getAs, castTo. rewrite E. auto.
Qed.

Lemma artificial_unreachable_witness :
  is_ ArtificialUnreachableLocation (SILLocation_N ExprF 16) = false
  /\ getAs ArtificialUnreachableLocation (SILLocation_N ExprF 16) = None
  /\ castTo ArtificialUnreachableLocation (SILLocation_N ExprF 16) = Abort.
Proof.
  destruct artificial_unreachable_null_and_exclusive as (_ & _ & _ & H).
  apply H. discriminate.
Defined.

(** C10. When the kind predicate of [V] holds of [L], [castTo<V>()] returns
    and [getAs<V>()] contains one and the same tag, which is equal to [L]
    under [operator==] and has [L]'s kind data, node reference and raw
    position. *)
Theorem narrowing_preserves_representation (V : View) (L : SILLocation) :
  isKind V L = true ->
  exists t : SILLocation,
    castTo V L = Ret t
    /\ getAs V L = Some t
    /\ SILLocation_eqb t L = true
    /\ KindData t = KindData L
    /\ getKind t = getKind L
    /\ ASTNode t = ASTNode L
    /\ SILFileSourceLoc t = SILFileSourceLoc L.
Proof.
  intros H. exists (assign (View_default V) L).
  unfold castTo, getAs. rewrite H. cbn [assertion bind negb].
  repeat split.
  rewrite assign_eq. now apply SILLocation_eqb_eq.
Qed.

Lemma narrowing_preserves_representation_witness :
  exists t : SILLocation,
    castTo CleanupLocation (pointToEnd (CleanupLocation_N ExprF 16)) = Ret t
    /\ getAs CleanupLocation (pointToEnd (CleanupLocation_N ExprF 16)) = Some t
    /\ SILLocation_eqb t (pointToEnd (CleanupLocation_N ExprF 16)) = true
    /\ KindData t = KindData (pointToEnd (CleanupLocation_N ExprF 16))
    /\ getKind t = getKind (pointToEnd (CleanupLocation_N ExprF 16))
    /\ ASTNode t = ASTNode (pointToEnd (CleanupLocation_N ExprF 16))
    /\ SILFileSourceLoc t
       = SILFileSourceLoc (pointToEnd (CleanupLocation_N ExprF 16)).
Proof.
  apply (narrowing_preserves_representation CleanupLocation
           (pointToEnd (CleanupLocation_N ExprF 16))).
  reflexivity.
Defined.

(** ** Narrowing to a node type *)

Section NodeProbes.

Variable ast : ASTContext.

(** [getAsASTNode<T>()] never aborts: it returns the node when the union
    holds [T]'s family, the pointer is not null and [classof] accepts the
    node, and a null pointer in every other case. *)
Lemma getAsASTNode_spec (T : ASTType) (L : SILLocation) :
  getAsASTNode ast T L
  = Ret (if PU_is (ASTNode L) (base_type T)
            && negb (PU_isNull (ASTNode L))
            && classof T (nodeKind ast (ptr (ASTNode L)))
         then ptr (ASTNode L) else nullptr).
Proof.
  unfold getAsASTNode, getNodeAs, PU_dyn_cast, PU_get, PU_isNull.
  destruct (PU_is (ASTNode L) (base_type T)); cbn [assertion bind andb].
  - unfold dyn_cast_or_null, dyn_cast, cast, isa.
    destruct (ptr (ASTNode L) =? 0); cbn [assertion bind negb andb].
    + reflexivity.
    + destruct (classof T (nodeKind ast (ptr (ASTNode L))));
        reflexivity.
  - reflexivity.
Qed.

(** [isASTNode<T>()]: false when the union holds another family, the
    answer of [classof] when it holds a node of [T]'s family, and an abort
    when it holds a null pointer under [T]'s family. *)
Lemma isASTNode_spec (T : ASTType) (L : SILLocation) :
  isASTNode ast T L
  = if PU_is (ASTNode L) (base_type T)
    then if PU_isNull (ASTNode L) then Abort
         else Ret (classof T (nodeKind ast (ptr (ASTNode L))))
    else Ret false.
Proof.
  unfold isASTNode, isNode, PU_get, isa, PU_isNull.
  destruct (PU_is (ASTNode L) (base_type T)); cbn [assertion bind].
  - destruct (ptr (ASTNode L) =? 0); reflexivity.
  - reflexivity.
Qed.

Lemma getAsASTNode_total (T : ASTType) (L : SILLocation) :
  exists p : pointer, getAsASTNode ast T L = Ret p.
Proof. rewrite getAsASTNode_spec. eauto. Qed.

Lemma getAsASTNode_other_family (T : ASTType) (L : SILLocation) :
  PU_is (ASTNode L) (base_type T) = false ->
  getAsASTNode ast T L = Ret nullptr.
Proof. intros H. now rewrite getAsASTNode_spec, H. Qed.

Lemma isASTNode_other_family (T : ASTType) (L : SILLocation) :
  PU_is (ASTNode L) (base_type T) = false ->
  isASTNode ast T L = Ret false.
Proof. intros H. now rewrite isASTNode_spec, H. Qed.

Lemma isASTNode_nonnull (T : ASTType) (L : SILLocation) :
  PU_isNull (ASTNode L) = false ->
  isASTNode ast T L
  = Ret (PU_is (ASTNode L) (base_type T)
         && classof T (nodeKind ast (ptr (ASTNode L)))).
Proof.
  intros H. rewrite isASTNode_spec, H.
  now destruct (PU_is (ASTNode L) (base_type T)).
Qed.

(** C2. On the module location, whose node reference is empty,
    [getAsASTNode<T>()] returns null for a statement type [T], and
    [isASTNode<T>()] does not return false: the default-constructed union
    answers [is<Stmt*>()] with true, and [isa<T>] is reached with a null
    pointer, which it asserts against.  The same happens for [Expr] on the
    tag built from a null [Expr*]. *)
Theorem isASTNode_aborts_on_empty_reference (c : nat -> bool) :
  PU_isNull (ASTNode getModuleLocation) = true
  /\ getAsASTNode ast (stmtType c) getModuleLocation = Ret nullptr
  /\ isASTNode ast (stmtType c) getModuleLocation = Abort
  /\ PU_isNull (ASTNode (SILLocation_N ExprF nullptr)) = true
  /\ getAsASTNode ast Expr (SILLocation_N ExprF nullptr) = Ret nullptr
  /\ isASTNode ast Expr (SILLocation_N ExprF nullptr) = Abort.
Proof.
  split; [reflexivity|].
  split; [now rewrite getAsASTNode_spec|].
  split; [now rewrite isASTNode_spec|].
  split; [reflexivity|].
  split; [now rewrite getAsASTNode_spec | now rewrite isASTNode_spec].
Qed.

End NodeProbes.

(** ** The conversion to an implicit return *)

(** [setKind] ORs the new kind into the four kind bits. *)
Lemma getKind_setKind (K : LocationKind) (L : SILLocation) :
  getKind (setKind K L) = Z.lor (getKind L) (LocationKind_val K).
Proof.
  unfold getKind, setKind. cbn [KindData].
  rewrite Z.land_lor_distr_l, <- Z.land_assoc, Z.land_diag.
  now rewrite LocationKind_val_masked.
Qed.

Lemma getSpecialFlags_setKind (K : LocationKind) (L : SILLocation) :
  getSpecialFlags (setKind K L) = getSpecialFlags L.
Proof.
  unfold getSpecialFlags, setKind. cbn [KindData].
  rewrite Z.land_lor_distr_l, <- Z.land_assoc.
  change (Z.land BaseMask (to_unsigned (Z.lnot BaseMask))) with 0.
  now rewrite Z.land_0_r, Z.lor_0_r.
Qed.

Lemma readFlag_setKind (s : Setter) (K : LocationKind) (L : SILLocation) :
  readFlag s (setKind K L) = readFlag s L.
Proof.
  rewrite !readFlag_testbit. unfold setKind. cbn [KindData].
  pose proof (Setter_bit_range s) as Hs.
  rewrite Z.lor_spec, Z.land_spec, testbit_BaseMask by lia.
  destruct (Z.ltb_spec (Setter_bit s) 4); [lia|].
  now rewrite andb_false_r, orb_false_r.
Qed.

Section ImplicitReturn.

Variable ast : ASTContext.

(** When the asserted condition holds the conversion returns, and what it
    returns is [L] with the kind bits of ImplicitReturn ORed in. *)
Lemma getImplicitReturnLoc_accepts (L : SILLocation) :
  implicitReturnPre ast L = Ret true ->
  getImplicitReturnLoc ast L = Ret (setKind ImplicitReturnKind L).
Proof. unfold getImplicitReturnLoc. now intros ->. Qed.

(** When it does not hold (or cannot be evaluated) the conversion aborts. *)
Lemma getImplicitReturnLoc_rejects (L : SILLocation) :
  implicitReturnPre ast L <> Ret true ->
  getImplicitReturnLoc ast L = Abort.
Proof.
  unfold getImplicitReturnLoc. intros H.
  destruct (implicitReturnPre ast L) as [[|]|]; [congruence | | ]; reflexivity.
Qed.

(** Flags, node reference and raw position go through unchanged. *)
Lemma getImplicitReturnLoc_keeps_payload (L L' : SILLocation) :
  getImplicitReturnLoc ast L = Ret L' ->
  getSpecialFlags L' = getSpecialFlags L
  /\ (forall s : Setter, readFlag s L' = readFlag s L)
  /\ ASTNode L' = ASTNode L
  /\ SILFileSourceLoc L' = SILFileSourceLoc L.
Proof.
  unfold getImplicitReturnLoc. intros H.
  destruct (implicitReturnPre ast L) as [[|]|]; cbn in H; try discriminate.
  injection H as <-. repeat split.
  - apply getSpecialFlags_setKind.
  - intros s. apply readFlag_setKind.
Qed.

(** From a tag of kind None, Regular, Return or ImplicitReturn the result
    is of kind ImplicitReturn. *)
Lemma getImplicitReturnLoc_from_low_kind (L L' : SILLocation) :
  0 <= getKind L <= 3 ->
  getImplicitReturnLoc ast L = Ret L' ->
  getKind L' = LocationKind_val ImplicitReturnKind.
Proof.
  unfold getImplicitReturnLoc. intros HK H.
  destruct (implicitReturnPre ast L) as [[|]|]; cbn in H; try discriminate.
  injection H as <-. rewrite getKind_setKind.
  assert (getKind L = 0 \/ getKind L = 1 \/ getKind L = 2 \/ getKind L = 3)
    as [-> | [-> | [-> | ->]]] by lia; reflexivity.
Qed.

(** A tag that references a statement is rejected. *)
Lemma getImplicitReturnLoc_statement (S : pointer) (K : LocationKind) :
  S <> nullptr ->
  getImplicitReturnLoc ast (SILLocation_NK StmtF S K) = Abort.
Proof.
  intros HS. apply getImplicitReturnLoc_rejects.
  unfold implicitReturnPre, orElse.
  rewrite !isASTNode_other_family by reflexivity. cbn [bind].
  unfold isNull, PU_isNull, SILLocation_NK. cbn [ASTNode ptr].
  apply Z.eqb_neq in HS. unfold nullptr in HS. rewrite HS. discriminate.
Qed.

(** C1. Applied to the tag of an inlined call site, which references an
    expression and so meets the asserted condition, the conversion returns a
    tag whose kind is not ImplicitReturn: [setKind] ORs 3 into the kind bits
    4 of Inlined, and the result reads as ArtificialUnreachable. *)
Theorem getImplicitReturnLoc_on_inlined_tag (E : pointer) :
  E <> nullptr ->
  implicitReturnPre ast (InlinedLocation_N ExprF E) = Ret true
  /\ getImplicitReturnLoc ast (InlinedLocation_N ExprF E)
     = Ret (setKind ImplicitReturnKind (InlinedLocation_N ExprF E))
  /\ getKind (setKind ImplicitReturnKind (InlinedLocation_N ExprF E))
     = LocationKind_val ArtificialUnreachableKind
  /\ is_ ImplicitReturnLocation
       (setKind ImplicitReturnKind (InlinedLocation_N ExprF E)) = false.
Proof.
  intros HE.
  assert (implicitReturnPre ast (InlinedLocation_N ExprF E) = Ret true) as HP.
  { unfold implicitReturnPre, orElse.
    rewrite isASTNode_nonnull.
    - reflexivity.
    - unfold PU_isNull, InlinedLocation_N, SILLocation_NK. cbn [ASTNode ptr].
      now apply Z.eqb_neq. }
  split; [exact HP|]. split; [now apply getImplicitReturnLoc_accepts|].
  split; reflexivity.
Qed.

End ImplicitReturn.

Lemma getImplicitReturnLoc_on_inlined_tag_witness :
  implicitReturnPre exampleAST (InlinedLocation_N ExprF 16) = Ret true
  /\ getImplicitReturnLoc exampleAST (InlinedLocation_N ExprF 16)
     = Ret (setKind ImplicitReturnKind (InlinedLocation_N ExprF 16))
  /\ getKind (setKind ImplicitReturnKind (InlinedLocation_N ExprF 16))
     = LocationKind_val ArtificialUnreachableKind
  /\ is_ ImplicitReturnLocation
       (setKind ImplicitReturnKind (InlinedLocation_N ExprF 16)) = false.
Proof.
  apply (getImplicitReturnLoc_on_inlined_tag exampleAST 16).
  discriminate.
Defined.

(** ** Position resolution *)

Lemma alwaysPointsToStart_pointToStart (L : SILLocation) :
  alwaysPointsToStart (pointToStart L) = true
  /\ alwaysPointsToEnd (pointToStart L) = alwaysPointsToEnd L.
Proof.
  split.
  - change (readFlag PointToStart (applySetter PointToStart L) = true).
    rewrite readFlag_applySetter. apply orb_true_r.
  - change (readFlag PointToEnd (applySetter PointToStart L)
            = readFlag PointToEnd L).
    rewrite readFlag_applySetter. apply orb_false_r.
Qed.

Lemma alwaysPointsToEnd_pointToEnd (L : SILLocation) :
  alwaysPointsToEnd (pointToEnd L) = true
  /\ alwaysPointsToStart (pointToEnd L) = alwaysPointsToStart L.
Proof.
  split.
  - change (readFlag PointToEnd (applySetter PointToEnd L) = true).
    rewrite readFlag_applySetter. apply orb_true_r.
  - change (readFlag PointToStart (applySetter PointToEnd L)
            = readFlag PointToStart L).
    rewrite readFlag_applySetter. apply orb_false_r.
Qed.

Section Positions.

Variable ast : ASTContext.

Lemma resolveLoc_no_node (L : SILLocation) (own : pointer -> SourceLoc) :
  hasASTLocation L = false -> resolveLoc ast L own = SILFileSourceLoc L.
Proof.
  unfold hasASTLocation, resolveLoc. intros H.
  apply negb_false_iff in H. now rewrite H.
Qed.

Lemma resolveLoc_node (L : SILLocation) (own : pointer -> SourceLoc) :
  hasASTLocation L = true ->
  resolveLoc ast L own
  = if alwaysPointsToStart L then nodeStartLoc ast (ptr (ASTNode L))
    else if alwaysPointsToEnd L then nodeEndLoc ast (ptr (ASTNode L))
    else own (ptr (ASTNode L)).
Proof.
  unfold hasASTLocation, resolveLoc. intros H.
  apply negb_true_iff in H. now rewrite H.
Qed.

(** C6, with the two overrides taken one at a time.  On a tag that holds a
    node: with neither override set,
    [getStartSourceLoc] and [getEndSourceLoc] are the node's own start and
    end; with PointsToStart set and PointsToEnd not, all three queries return
    the node's start; with PointsToEnd set and PointsToStart not, all three
    return the node's end; the same read on the tag that [pointToStart] or
    [pointToEnd] has just been called on.  On a tag without a node, all three
    queries return the stored raw position. *)
Theorem position_resolution (L : SILLocation) :
  (hasASTLocation L = true ->
   alwaysPointsToStart L = false -> alwaysPointsToEnd L = false ->
   getStartSourceLoc ast L = nodeStartLoc ast (ptr (ASTNode L))
   /\ getEndSourceLoc ast L = nodeEndLoc ast (ptr (ASTNode L)))
  /\ (hasASTLocation L = true ->
      alwaysPointsToStart L = true -> alwaysPointsToEnd L = false ->
      getSourceLoc ast L = nodeStartLoc ast (ptr (ASTNode L))
      /\ getStartSourceLoc ast L = nodeStartLoc ast (ptr (ASTNode L))
      /\ getEndSourceLoc ast L = nodeStartLoc ast (ptr (ASTNode L)))
  /\ (hasASTLocation L = true ->
      alwaysPointsToEnd L = true -> alwaysPointsToStart L = false ->
      getSourceLoc ast L = nodeEndLoc ast (ptr (ASTNode L))
      /\ getStartSourceLoc ast L = nodeEndLoc ast (ptr (ASTNode L))
      /\ getEndSourceLoc ast L = nodeEndLoc ast (ptr (ASTNode L)))
  /\ (hasASTLocation L = true -> alwaysPointsToEnd L = false ->
      getSourceLoc ast (pointToStart L) = nodeStartLoc ast (ptr (ASTNode L))
      /\ getStartSourceLoc ast (pointToStart L)
         = nodeStartLoc ast (ptr (ASTNode L))
      /\ getEndSourceLoc ast (pointToStart L)
         = nodeStartLoc ast (ptr (ASTNode L)))
  /\ (hasASTLocation L = true -> alwaysPointsToStart L = false ->
      getSourceLoc ast (pointToEnd L) = nodeEndLoc ast (ptr (ASTNode L))
      /\ getStartSourceLoc ast (pointToEnd L)
         = nodeEndLoc ast (ptr (ASTNode L))
      /\ getEndSourceLoc ast (pointToEnd L)
         = nodeEndLoc ast (ptr (ASTNode L)))
  /\ (hasASTLocation L = false ->
      getSourceLoc ast L = SILFileSourceLoc L
      /\ getStartSourceLoc ast L = SILFileSourceLoc L
      /\ getEndSourceLoc ast L = SILFileSourceLoc L)
  /\ (forall P : SourceLoc,
        getSourceLoc ast (SILFileLocation_new P) = P
        /\ getStartSourceLoc ast (SILFileLocation_new P) = P
        /\ getEndSourceLoc ast (SILFileLocation_new P) = P).
Proof.
  unfold getSourceLoc, getStartSourceLoc, getEndSourceLoc.
  repeat match goal with |- _ /\ _ => split end.
  - intros HN HS HE. split; now rewrite resolveLoc_node, HS, HE.
  - intros HN HS HE. repeat split; now rewrite resolveLoc_node, HS.
  - intros HN HE HS. repeat split; now rewrite resolveLoc_node, HS, HE.
  - intros HN HE.
    destruct (alwaysPointsToStart_pointToStart L) as [H1 H2].
    assert (hasASTLocation (pointToStart L) = true) as HN' by exact HN.
    repeat split; now rewrite resolveLoc_node, H1.
  - intros HN HS.
    destruct (alwaysPointsToEnd_pointToEnd L) as [H1 H2].
    assert (hasASTLocation (pointToEnd L) = true) as HN' by exact HN.
    repeat split; now rewrite resolveLoc_node, H1, H2, HS.
  - intros HN. repeat split; now rewrite resolveLoc_no_node.
  - intros P. repeat split.
Qed.

End Positions.

Lemma position_resolution_witness :
  (getStartSourceLoc exampleAST (SILLocation_N ExprF 16) = mkSourceLoc 17
   /\ getEndSourceLoc exampleAST (SILLocation_N ExprF 16) = mkSourceLoc 25)
  /\ (getSourceLoc exampleAST (pointToStart (SILLocation_N ExprF 16))
      = mkSourceLoc 17
      /\ getStartSourceLoc exampleAST (pointToStart (SILLocation_N ExprF 16))
         = mkSourceLoc 17
      /\ getEndSourceLoc exampleAST (pointToStart (SILLocation_N ExprF 16))
         = mkSourceLoc 17)
  /\ (getSourceLoc exampleAST (pointToEnd (SILLocation_N ExprF 16))
      = mkSourceLoc 25
      /\ getStartSourceLoc exampleAST (pointToEnd (SILLocation_N ExprF 16))
         = mkSourceLoc 25
      /\ getEndSourceLoc exampleAST (pointToEnd (SILLocation_N ExprF 16))
         = mkSourceLoc 25)
  /\ (getSourceLoc exampleAST (SILFileLocation_new (mkSourceLoc 7))
      = mkSourceLoc 7
      /\ getStartSourceLoc exampleAST (SILFileLocation_new (mkSourceLoc 7))
         = mkSourceLoc 7
      /\ getEndSourceLoc exampleAST (SILFileLocation_new (mkSourceLoc 7))
         = mkSourceLoc 7).
Proof.
  destruct (position_resolution exampleAST (SILLocation_N ExprF 16))
    as (Hnone & _ & _ & Hstart & Hend & _ & _).
  destruct (position_resolution exampleAST
              (SILFileLocation_new (mkSourceLoc 7)))
    as (_ & _ & _ & _ & _ & Hraw & _).
  split; [|split; [|split]].
  - apply Hnone; reflexivity.
  - apply Hstart; reflexivity.
  - apply Hend; reflexivity.
  - apply Hraw; reflexivity.
Defined.

(** C6 cannot hold of a tag that carries both overrides: if on every tag
    with a node a set PointsToStart made all queries return the node's start
    and a set PointsToEnd made them return its end, the tag on which both
    setters were called would make start and end of its node coincide; the
    node at address 16 of [exampleAST] starts at 17 and ends at 25. *)
Lemma position_overrides_conflict :
  ~ (forall (ast : ASTContext) (L : SILLocation),
       hasASTLocation L = true ->
       (alwaysPointsToStart L = true ->
        getSourceLoc ast L = nodeStartLoc ast (ptr (ASTNode L))
        /\ getStartSourceLoc ast L = nodeStartLoc ast (ptr (ASTNode L))
        /\ getEndSourceLoc ast L = nodeStartLoc ast (ptr (ASTNode L)))
       /\ (alwaysPointsToEnd L = true ->
           getSourceLoc ast L = nodeEndLoc ast (ptr (ASTNode L))
           /\ getStartSourceLoc ast L = nodeEndLoc ast (ptr (ASTNode L))
           /\ getEndSourceLoc ast L = nodeEndLoc ast (ptr (ASTNode L)))).
Proof.
  intros H.
  destruct (H exampleAST (pointToEnd (pointToStart (SILLocation_N ExprF 16)))
              eq_refl) as [HS HE].
  destruct (HS eq_refl) as (A & _). destruct (HE eq_refl) as (B & _).
  rewrite A in B. discriminate B.
Qed.

(** * Further properties of the header *)

(** ** The three node narrowings against each other *)

Section NodeNarrowing.

Variable ast : ASTContext.

Lemma castToASTNode_spec (T : ASTType) (L : SILLocation) :
  castToASTNode ast T L
  = if PU_is (ASTNode L) (base_type T)
       && negb (PU_isNull (ASTNode L))
       && classof T (nodeKind ast (ptr (ASTNode L)))
    then Ret (ptr (ASTNode L)) else Abort.
Proof.
  unfold castToASTNode, castNodeTo, PU_get, cast, isa, PU_isNull.
  destruct (PU_is (ASTNode L) (base_type T)); cbn [assertion bind andb].
  - destruct (ptr (ASTNode L) =? 0); cbn [assertion bind negb andb].
    + reflexivity.
    + destruct (classof T (nodeKind ast (ptr (ASTNode L)))); reflexivity.
  - reflexivity.
Qed.

(** [getAsASTNode<T>()] never aborts, and what it returns is either null or
    the pointer the tag holds; it is that pointer only when the union holds
    [T]'s family and [T::classof] accepts the node. *)
Theorem getAsASTNode_returns_null_or_held (T : ASTType) (L : SILLocation) :
  exists p : pointer,
    getAsASTNode ast T L = Ret p
    /\ (p = nullptr
        \/ (p = ptr (ASTNode L)
            /\ PU_is (ASTNode L) (base_type T) = true
            /\ classof T (nodeKind ast p) = true)).
Proof.
  rewrite getAsASTNode_spec.
  destruct (PU_is (ASTNode L) (base_type T)); cbn [andb].
  - destruct (negb (PU_isNull (ASTNode L))); cbn [andb].
    + destruct (classof T (nodeKind ast (ptr (ASTNode L)))) eqn:E.
      * eexists. split; [reflexivity|]. right. auto.
      * eexists. split; [reflexivity|]. now left.
    + eexists. split; [reflexivity|]. now left.
  - eexists. split; [reflexivity|]. now left.
Qed.

(** [isASTNode<T>()] aborts exactly on the tags whose union holds a null
    pointer under [T]'s family. *)
Theorem isASTNode_aborts_iff (T : ASTType) (L : SILLocation) :
  isASTNode ast T L = Abort
  <-> PU_is (ASTNode L) (base_type T) = true
      /\ PU_isNull (ASTNode L) = true.
Proof.
  rewrite isASTNode_spec.
  destruct (PU_is (ASTNode L) (base_type T));
    destruct (PU_isNull (ASTNode L)); split;
    solve [ intros H; discriminate H
          | intros [H1 H2]; discriminate
          | auto ].
Qed.

(** The asserting narrowing returns a node exactly when the probing one
    returns that node and it is not null; in every other case it aborts. *)
Theorem castToASTNode_iff_getAsASTNode (T : ASTType) (L : SILLocation) :
  (forall p : pointer,
     castToASTNode ast T L = Ret p
     <-> getAsASTNode ast T L = Ret p /\ p <> nullptr)
  /\ (castToASTNode ast T L = Abort
      <-> getAsASTNode ast T L = Ret nullptr).
Proof.
  rewrite castToASTNode_spec, getAsASTNode_spec.
  unfold PU_isNull, nullptr.
  destruct (PU_is (ASTNode L) (base_type T)); cbn [andb].
  2: { split; [intros p|]; split; try discriminate; auto.
       intros [H Hp]. injection H as <-. congruence. }
  destruct (Z.eqb_spec (ptr (ASTNode L)) 0) as [E|E]; cbn [negb andb].
  { split; [intros p|]; split; try discriminate; auto.
    intros [H Hp]. injection H as <-. congruence. }
  destruct (classof T (nodeKind ast (ptr (ASTNode L)))).
  - split; [intros p|]; split.
    + intros H. injection H as <-. auto.
    + intros [H _]. exact H.
    + discriminate.
    + intros H. injection H as H. congruence.
  - split; [intros p|]; split; try discriminate; auto.
    intros [H Hp]. injection H as <-. congruence.
Qed.

(** What [isASTNode<T>()] answers fixes the other two narrowings: on true
    both return the held, non-null node; on false, and when it aborts, the
    probe returns null and the asserting cast aborts. *)
Theorem node_narrowings_agree (T : ASTType) (L : SILLocation) :
  (isASTNode ast T L = Ret true ->
   getAsASTNode ast T L = Ret (ptr (ASTNode L))
   /\ castToASTNode ast T L = Ret (ptr (ASTNode L))
   /\ ptr (ASTNode L) <> nullptr)
  /\ (isASTNode ast T L <> Ret true ->
      getAsASTNode ast T L = Ret nullptr
      /\ castToASTNode ast T L = Abort).
Proof.
  rewrite isASTNode_spec, castToASTNode_spec, getAsASTNode_spec.
  unfold PU_isNull, nullptr.
  destruct (PU_is (ASTNode L) (base_type T)); cbn [andb].
  2: { split; [discriminate | auto]. }
  destruct (Z.eqb_spec (ptr (ASTNode L)) 0) as [E|E]; cbn [negb andb].
  { split; [discriminate | auto]. }
  destruct (classof T (nodeKind ast (ptr (ASTNode L)))).
  - split; [auto | congruence].
  - split; [discriminate | auto].
Qed.

(** On a [RegularLocation] built from a non-null node, the node narrowings
    the class declares in place of the view narrowings never abort in the
    probing forms: [is<T>()] says whether the node is of [T]'s family and
    accepted by [T::classof], [getAs<T>()] returns the node or null
    accordingly, and [castTo<T>()] returns the node or aborts.  On the two
    synthesized locations, which hold no node, [getAs<T>()] returns null and
    [castTo<T>()] aborts for every [T], and [is<T>()] aborts for a statement
    type. *)
Theorem RegularLocation_node_narrowings
    (T : ASTType) (F : Family) (N : pointer) (c : nat -> bool) :
  N <> nullptr ->
  RegularLocation_is ast T (RegularLocation_N F N)
  = Ret (Family_eqb F (base_type T) && classof T (nodeKind ast N))
  /\ RegularLocation_getAs ast T (RegularLocation_N F N)
     = Ret (if Family_eqb F (base_type T) && classof T (nodeKind ast N)
            then N else nullptr)
  /\ RegularLocation_castTo ast T (RegularLocation_N F N)
     = (if Family_eqb F (base_type T) && classof T (nodeKind ast N)
        then Ret N else Abort)
  /\ RegularLocation_getAs ast T getModuleLocation = Ret nullptr
  /\ RegularLocation_getAs ast T getAutoGeneratedLocation = Ret nullptr
  /\ RegularLocation_castTo ast T getModuleLocation = Abort
  /\ RegularLocation_castTo ast T getAutoGeneratedLocation = Abort
  /\ RegularLocation_is ast (stmtType c) getModuleLocation = Abort
  /\ RegularLocation_is ast (stmtType c) getAutoGeneratedLocation = Abort.
Proof.
  intros HN. apply Z.eqb_neq in HN. unfold nullptr in HN.
  change (RegularLocation_is ast) with (isASTNode ast).
  change (RegularLocation_getAs ast) with (getAsASTNode ast).
  change (RegularLocation_castTo ast) with (castToASTNode ast).
  rewrite !isASTNode_spec, !castToASTNode_spec, !getAsASTNode_spec.
  unfold RegularLocation_N, SILLocation_NK, PU_is, PU_isNull.
  cbn [ASTNode tag ptr]. rewrite HN. cbn [negb andb].
  repeat match goal with |- _ /\ _ => split end.
  - now destruct (Family_eqb F (base_type T)).
  - now destruct (Family_eqb F (base_type T)).
  - now destruct (Family_eqb F (base_type T)).
  - cbn. now destruct (base_type T).
  - cbn. now destruct (base_type T).
  - cbn. now destruct (base_type T).
  - cbn. now destruct (base_type T).
  - reflexivity.
  - reflexivity.
Qed.

(** [ReturnLocation::get()] returns the statement the tag was built from
    when that statement is a [ReturnStmt], and aborts when it is not (the
    tag of a constructor or destructor, built from a [BraceStmt]) or when
    the pointer is null. *)
Theorem ReturnLocation_get_spec (c : nat -> bool) (S : pointer) :
  ReturnLocation_get ast c (ReturnLocation_N S)
  = if negb (S =? 0) && c (nodeKind ast S) then Ret S else Abort.
Proof.
  unfold ReturnLocation_get. rewrite castToASTNode_spec. reflexivity.
Qed.

(** [ImplicitReturnLocation::get()] returns a node only on the tag built
    from a closure expression: on the tags built from a [ReturnStmt] or an
    [AbstractFunctionDecl] it aborts, whatever the AST holds. *)
Theorem ImplicitReturnLocation_get_spec
    (c : nat -> bool) (F : Family) (N p : pointer) :
  ImplicitReturnLocation_get ast c (ImplicitReturnLocation_N F N) = Ret p
  <-> F = ExprF /\ N <> nullptr /\ c (nodeKind ast N) = true /\ p = N.
Proof.
  unfold ImplicitReturnLocation_get. rewrite castToASTNode_spec.
  unfold ImplicitReturnLocation_N, SILLocation_NK, PU_is, PU_isNull, nullptr.
  cbn [ASTNode tag ptr exprType base_type classof].
  destruct F; cbn [Family_eqb andb];
    try (split; [discriminate | intros (H & _); discriminate H]).
  destruct (Z.eqb_spec N 0) as [E|E]; cbn [negb andb].
  - split; [discriminate | intros (_ & H & _); congruence].
  - destruct (c (nodeKind ast N)).
    + split.
      * intros H. injection H as <-. auto.
      * intros (_ & _ & _ & ->). reflexivity.
    + split; [discriminate | intros (_ & _ & H & _); discriminate H].
Qed.

End NodeNarrowing.

Lemma RegularLocation_node_narrowings_witness :
  RegularLocation_is exampleAST Expr (RegularLocation_N ExprF 16) = Ret true
  /\ RegularLocation_is exampleAST (stmtType (fun _ => true))
       (RegularLocation_N ExprF 16) = Ret false
  /\ RegularLocation_castTo exampleAST Expr (RegularLocation_N ExprF 16)
     = Ret 16.
Proof.
  destruct (RegularLocation_node_narrowings exampleAST Expr ExprF 16
              (fun _ => true)) as (H1 & _ & H3 & _); [discriminate|].
  destruct (RegularLocation_node_narrowings exampleAST
              (stmtType (fun _ => true)) ExprF 16 (fun _ => true))
    as (H4 & _); [discriminate|].
  split; [exact H1|]. split; [exact H4 | exact H3].
Defined.

Lemma node_narrowings_agree_witness :
  getAsASTNode exampleAST Expr (CleanupLocation_N ExprF 16) = Ret 16
  /\ castToASTNode exampleAST Expr (CleanupLocation_N ExprF 16) = Ret 16
  /\ getAsASTNode exampleAST Expr (CleanupLocation_N DeclF 16) = Ret nullptr
  /\ castToASTNode exampleAST Expr (CleanupLocation_N DeclF 16) = Abort.
Proof.
  destruct (node_narrowings_agree exampleAST Expr (CleanupLocation_N ExprF 16))
    as (Hyes & _).
  destruct (node_narrowings_agree exampleAST Expr (CleanupLocation_N DeclF 16))
    as (_ & Hno).
  destruct (Hyes eq_refl) as (A & B & _).
  destruct Hno as (C & D); [discriminate|].
  auto.
Defined.

(** ** When the conversion to an implicit return accepts a tag *)

Lemma getKind_range (L : SILLocation) : 0 <= getKind L < 16.
Proof.
  unfold getKind. change BaseMask with (Z.ones 4).
  rewrite Z.land_ones by lia. apply Z.mod_pos_bound. lia.
Qed.

Lemma lor_3_iff (g : Z) : 0 <= g < 16 -> (Z.lor g 3 = 3 <-> g <= 3).
Proof.
  intros [H1 H2]. destruct g as [|p|p]; [cbn; lia | | lia].
  do 4 (try destruct p as [p|p|]); cbn; lia.
Qed.

Section ImplicitReturnCases.

Variable ast : ASTContext.

(** [getImplicitReturnLoc] by the case of the node reference.  A tag whose
    union holds the expression family is accepted when the pointer is not
    null; one that holds the declaration family when the pointer is not null
    and the node is a [ValueDecl] or a [PatternBindingDecl]; one that holds
    the statement or the pattern family only when the whole tag is null and
    marked as top-level.  Every other tag aborts, among them the tags built
    from a null [Expr*] or [Decl*]. *)
Theorem getImplicitReturnLoc_by_cases (L : SILLocation) :
  getImplicitReturnLoc ast L
  = if match tag (ASTNode L) with
       | ExprF => negb (PU_isNull (ASTNode L))
       | DeclF =>
           negb (PU_isNull (ASTNode L))
           && (ValueDecl_classof ast (nodeKind ast (ptr (ASTNode L)))
               || PatternBindingDecl_classof ast
                    (nodeKind ast (ptr (ASTNode L))))
       | StmtF | PatternF => isNull L && isInTopLevel L
       end
    then Ret (setKind ImplicitReturnKind L) else Abort.
Proof.
  unfold getImplicitReturnLoc, implicitReturnPre, orElse.
  rewrite !isASTNode_spec. unfold PU_is, isNull.
  cbn [Expr ValueDecl PatternBindingDecl base_type classof].
  destruct (tag (ASTNode L)); cbn [Family_eqb bind].
  - now destruct (PU_isNull (ASTNode L) && _ && _).
  - now destruct (PU_isNull (ASTNode L)).
  - destruct (PU_isNull (ASTNode L)); cbn [bind negb andb]; [reflexivity|].
    destruct (ValueDecl_classof ast _); cbn [bind orb]; [reflexivity|].
    destruct (PatternBindingDecl_classof ast _); reflexivity.
  - now destruct (PU_isNull (ASTNode L) && _ && _).
Qed.

(** What the conversion returns is of kind ImplicitReturn exactly when the
    tag it was given is of kind None, Regular, Return or ImplicitReturn. *)
Theorem getImplicitReturnLoc_kind_iff (L L' : SILLocation) :
  getImplicitReturnLoc ast L = Ret L' ->
  (getKind L' = LocationKind_val ImplicitReturnKind <-> getKind L <= 3).
Proof.
  unfold getImplicitReturnLoc. intros H.
  destruct (implicitReturnPre ast L) as [[|]|]; cbn in H; try discriminate.
  injection H as <-. rewrite getKind_setKind.
  apply lor_3_iff, getKind_range.
Qed.

End ImplicitReturnCases.

Lemma getImplicitReturnLoc_kind_iff_witness :
  getKind (setKind ImplicitReturnKind (CleanupLocation_N ExprF 16))
  = LocationKind_val ImplicitReturnKind
  <-> getKind (CleanupLocation_N ExprF 16) <= 3.
Proof.
  apply (getImplicitReturnLoc_kind_iff exampleAST
           (CleanupLocation_N ExprF 16)).
  reflexivity.
Defined.

(** ** Sequences of flag setters *)

Lemma SILLocation_ext (L R : SILLocation) :
  ASTNode L = ASTNode R -> SILFileSourceLoc L = SILFileSourceLoc R ->
  KindData L = KindData R -> L = R.
Proof. destruct L, R. cbn. congruence. Qed.

Lemma applySetter_comm (s s' : Setter) (L : SILLocation) :
  applySetter s (applySetter s' L) = applySetter s' (applySetter s L).
Proof.
  apply SILLocation_ext.
  - now rewrite !ASTNode_applySetter.
  - now rewrite !SILFileSourceLoc_applySetter.
  - rewrite !KindData_applySetter, <- !Z.lor_assoc. f_equal. apply Z.lor_comm.
Qed.

(** The flag setters commute, so a sequence of setter calls leaves the same
    tag in whatever order the calls are made. *)
Theorem runSetters_order_irrelevant (ss ss' : list Setter) (L : SILLocation) :
  Permutation ss ss' -> runSetters ss L = runSetters ss' L.
Proof.
  intros HP. revert L.
  induction HP as [|s l l' _ IH|s s' l|l l' l'' _ IH1 _ IH2]; intros L.
  - reflexivity.
  - simpl. apply IH.
  - simpl. now rewrite applySetter_comm.
  - now rewrite IH1.
Qed.

Lemma runSetters_order_irrelevant_witness :
  runSetters [PointToEnd; MarkAsPrologue; MarkAutoGenerated]
    (SILLocation_N PatternF 8)
  = runSetters [MarkAutoGenerated; PointToEnd; MarkAsPrologue]
      (SILLocation_N PatternF 8).
Proof.
  apply runSetters_order_irrelevant.
  apply Permutation_sym.
  apply (Permutation_cons_app [PointToEnd; MarkAsPrologue] []).
  apply Permutation_refl.
Defined.

(** After a sequence of setter calls a flag reads true exactly when it read
    true before or its setter is among the calls: flags are only ever set,
    and only by their own setter. *)
Theorem readFlag_runSetters (s : Setter) (ss : list Setter) (L : SILLocation) :
  readFlag s (runSetters ss L) = readFlag s L || calls s ss.
Proof.
  revert L. induction ss as [|s' rest IH]; intros L; simpl.
  - now rewrite orb_false_r.
  - rewrite IH, readFlag_applySetter. unfold calls, Setter_eqb.
    rewrite (Z.eqb_sym (Setter_bit s') (Setter_bit s)).
    now rewrite orb_assoc.
Qed.

(** A setter returns a tag equal to the one it was applied to exactly when
    its flag was already set. *)
Theorem setter_result_equal_iff_flag_set (s : Setter) (L : SILLocation) :
  SILLocation_eqb (applySetter s L) L = readFlag s L.
Proof.
  pose proof (Setter_bit_range s) as Hs.
  destruct (readFlag s L) eqn:E.
  - apply SILLocation_eqb_eq. apply SILLocation_ext.
    + apply ASTNode_applySetter.
    + apply SILFileSourceLoc_applySetter.
    + rewrite KindData_applySetter. apply Z.bits_inj'. intros n Hn.
      rewrite testbit_set_flag by lia.
      destruct (Z.eqb_spec (Setter_bit s) n) as [<-|_].
      * rewrite readFlag_testbit in E. now rewrite E.
      * apply orb_false_r.
  - apply SILLocation_eqb_neq. intros H.
    assert (readFlag s (applySetter s L) = true) as T.
    { rewrite readFlag_applySetter, Z.eqb_refl. apply orb_true_r. }
    rewrite H in T. congruence.
Qed.

(** ** The invariant of [KindData] *)

Lemma wellFormed_bound (L : SILLocation) :
  wellFormed L -> 0 <= KindData L < 1024 /\ Z.testbit (KindData L) 4 = false.
Proof.
  unfold wellFormed. intros H. split.
  - assert (Z.land (KindData L) (Z.ones 10) = KindData L) as H10.
    { rewrite <- H at 1. rewrite <- Z.land_assoc.
      change (Z.land KindDataMask (Z.ones 10)) with KindDataMask.
      exact H. }
    rewrite Z.land_ones in H10 by lia. rewrite <- H10.
    apply Z.mod_pos_bound. lia.
  - rewrite <- H, Z.land_spec. apply andb_false_r.
Qed.

(** Every constructor that initialises [KindData] (the kind-taking and
    node-taking constructors of [SILLocation], to which the constructors of
    the views delegate; the protected [SILLocation()] initialises nothing and
    is left aside) builds a tag whose [KindData] is below 1024 with bit 4
    clear, holding nothing but the four kind bits and the five flag bits, and
    the flag setters, [setKind], the flag-carrying constructors fed with
    [getSpecialFlags()] of such a tag, the view narrowing and the conversion
    to an implicit return all keep it so. *)
Theorem KindData_invariant :
  (forall K, wellFormed (SILLocation_K K))
  /\ (forall F N K, wellFormed (SILLocation_NK F N K))
  /\ (forall F N, wellFormed (SILLocation_N F N))
  /\ (forall V, wellFormed (View_default V))
  /\ (forall Loc,
        wellFormed (InlinedLocation_Loc Loc)
        /\ wellFormed (MandatoryInlinedLocation_Loc Loc)
        /\ wellFormed (SILFileLocation_new Loc))
  /\ (forall s L, wellFormed L -> wellFormed (applySetter s L))
  /\ (forall ss L, wellFormed L -> wellFormed (runSetters ss L))
  /\ (forall K L, wellFormed L -> wellFormed (setKind K L))
  /\ (forall F N K L,
        wellFormed L -> wellFormed (SILLocation_NKF F N K (getSpecialFlags L)))
  /\ (forall K L,
        wellFormed L -> wellFormed (SILLocation_KF K (getSpecialFlags L)))
  /\ (forall Loc L,
        wellFormed L ->
        wellFormed (InlinedLocation_LocF Loc (getSpecialFlags L))
        /\ wellFormed (MandatoryInlinedLocation_LocF Loc (getSpecialFlags L)))
  /\ (forall V L t, wellFormed L -> castTo V L = Ret t -> wellFormed t)
  /\ (forall V L t, wellFormed L -> getAs V L = Some t -> wellFormed t)
  /\ (forall ast L t,
        wellFormed L -> getImplicitReturnLoc ast L = Ret t -> wellFormed t)
  /\ (forall L,
        wellFormed L ->
        0 <= KindData L < 1024 /\ Z.testbit (KindData L) 4 = false).
Proof.
  repeat match goal with |- _ /\ _ => split end.
  - apply wellFormed_SILLocation_K.
  - apply wellFormed_SILLocation_NK.
  - reflexivity.
  - intros V. destruct V; reflexivity.
  - intros Loc. split; [|split]; reflexivity.
  - intros s L. apply wellFormed_applySetter.
  - intros ss. induction ss as [|s rest IH]; intros L H; simpl.
    + exact H.
    + apply IH. now apply wellFormed_applySetter.
  - intros K L. apply wellFormed_setKind.
  - intros F N K L. apply wellFormed_SILLocation_NKF.
  - intros K L H. exact (wellFormed_SILLocation_NKF StmtF nullptr K L H).
  - intros Loc L H. split.
    + exact (wellFormed_SILLocation_NKF StmtF nullptr InlinedKind L H).
    + exact (wellFormed_SILLocation_NKF StmtF nullptr MandatoryInlinedKind
               L H).
  - intros V L t H. unfold castTo.
    destruct (isKind V L); cbn; [|discriminate].
    intros E. injection E as <-. now rewrite assign_eq.
  - intros V L t H. unfold getAs.
    destruct (isKind V L); cbn; [|discriminate].
    intros E. injection E as <-. now rewrite assign_eq.
  - intros ast L t H. unfold getImplicitReturnLoc.
    destruct (implicitReturnPre ast L) as [[|]|]; cbn; try discriminate.
    intros E. injection E as <-. now apply wellFormed_setKind.
  - apply wellFormed_bound.
Qed.

Lemma KindData_invariant_witness :
  0 <= KindData (runSetters [PointToEnd; MarkAsPrologue]
                   (setKind ImplicitReturnKind (SILLocation_N ExprF 16)))
    < 1024.
Proof.
  destruct KindData_invariant
    as (_ & _ & HN & _ & _ & _ & Hrun & Hset & _ & _ & _ & _ & _ & _ & Hbound).
  apply Hbound, Hrun, Hset, HN.
Defined.

(** ** Deriving a tag with the flags of another *)

Lemma getKind_with_flags (K : LocationKind) (L : SILLocation) :
  Z.land (Z.lor (LocationKind_val K) (getSpecialFlags L)) BaseMask
  = LocationKind_val K.
Proof.
  unfold getSpecialFlags.
  rewrite Z.land_lor_distr_l, LocationKind_val_masked, <- Z.land_assoc.
  change (Z.land (to_unsigned (Z.lnot BaseMask)) BaseMask) with 0.
  now rewrite Z.land_0_r, Z.lor_0_r.
Qed.

Lemma testbit_LocationKind_val_high (K : LocationKind) (b : Z) :
  4 <= b -> Z.testbit (LocationKind_val K) b = false.
Proof.
  intros Hb. rewrite <- LocationKind_val_masked, Z.land_spec.
  rewrite testbit_BaseMask by lia.
  destruct (Z.ltb_spec b 4); [lia | apply andb_false_r].
Qed.

Lemma testbit_flags_mask (b : Z) :
  0 <= b ->
  Z.testbit (to_unsigned (Z.lnot BaseMask)) b = (4 <=? b) && (b <? 32).
Proof.
  intros Hb.
  change (to_unsigned (Z.lnot BaseMask)) with (Z.shiftl (Z.ones 28) 4).
  rewrite Z.shiftl_spec by assumption.
  destruct (Z.leb_spec 4 b); destruct (Z.ltb_spec b 32); simpl.
  - apply Z.ones_spec_low; lia.
  - apply Z.ones_spec_high; lia.
  - apply Z.testbit_neg_r; lia.
  - apply Z.testbit_neg_r; lia.
Qed.

Lemma readFlag_with_flags (s : Setter) (K : LocationKind) (L : SILLocation)
    (N : ASTNodeTy) (P : SourceLoc) :
  readFlag s
    (mkSILLocation N P (Z.lor (LocationKind_val K) (getSpecialFlags L)))
  = readFlag s L.
Proof.
  rewrite !readFlag_testbit. cbn [KindData]. unfold getSpecialFlags.
  pose proof (Setter_bit_range s) as Hs.
  rewrite Z.lor_spec, Z.land_spec, testbit_LocationKind_val_high by lia.
  rewrite testbit_flags_mask by lia.
  destruct (Z.leb_spec 4 (Setter_bit s)); [|lia].
  destruct (Z.ltb_spec (Setter_bit s) 32); [|lia].
  cbn [orb andb]. apply andb_true_r.
Qed.

(** A tag built by a flag-carrying constructor from [getSpecialFlags()] of
    another tag has the kind the constructor names, whatever the kind of the
    other tag was, reads every flag as the other tag does, and references the
    node or stores the position it was given. *)
Theorem constructors_with_flags_keep_flags
    (F : Family) (N : pointer) (K : LocationKind) (Loc : SourceLoc)
    (L : SILLocation) :
  (getKind (SILLocation_NKF F N K (getSpecialFlags L)) = LocationKind_val K
   /\ (forall s, readFlag s (SILLocation_NKF F N K (getSpecialFlags L))
                 = readFlag s L)
   /\ ASTNode (SILLocation_NKF F N K (getSpecialFlags L)) = mkASTNode F N)
  /\ (getKind (SILLocation_KF K (getSpecialFlags L)) = LocationKind_val K
      /\ (forall s, readFlag s (SILLocation_KF K (getSpecialFlags L))
                    = readFlag s L)
      /\ isNull (SILLocation_KF K (getSpecialFlags L)) = true)
  /\ (is_ InlinedLocation (InlinedLocation_LocF Loc (getSpecialFlags L)) = true
      /\ (forall s, readFlag s (InlinedLocation_LocF Loc (getSpecialFlags L))
                    = readFlag s L)
      /\ InlinedLocation_getFileLocation
           (InlinedLocation_LocF Loc (getSpecialFlags L)) = Ret Loc)
  /\ (is_ MandatoryInlinedLocation
        (MandatoryInlinedLocation_LocF Loc (getSpecialFlags L)) = true
      /\ (forall s, readFlag s
                      (MandatoryInlinedLocation_LocF Loc (getSpecialFlags L))
                    = readFlag s L)
      /\ MandatoryInlinedLocation_getFileLocation
           (MandatoryInlinedLocation_LocF Loc (getSpecialFlags L)) = Ret Loc).
Proof.
  repeat match goal with |- _ /\ _ => split end;
    try (intros s; apply readFlag_with_flags);
    try reflexivity.
  - apply getKind_with_flags.
  - apply getKind_with_flags.
  - unfold is_. rewrite isKind_spec. apply Z.eqb_eq.
    apply (getKind_with_flags InlinedKind).
  - unfold is_. rewrite isKind_spec. apply Z.eqb_eq.
    apply (getKind_with_flags MandatoryInlinedKind).
Qed.



(** ** File locations *)







(** ** The synthesized locations *)

(** The module location, the auto-generated location and the module
    cleanup location are null tags of kind Regular, Regular and Cleanup that
    carry InTopLevel, AutoGenerated and InTopLevel and no other flag, and
    stay null under flag setters.  Whatever the AST, the conversion to an
    implicit return accepts the module location, returning a null top-level
    tag of kind ImplicitReturn, and aborts on the auto-generated location. *)
Theorem synthesized_locations :
  (isNull getModuleLocation = true
   /\ is_ RegularLocation getModuleLocation = true
   /\ forall s, readFlag s getModuleLocation = Setter_eqb s MarkAsInTopLevel)
  /\ (isNull getAutoGeneratedLocation = true
      /\ is_ RegularLocation getAutoGeneratedLocation = true
      /\ forall s, readFlag s getAutoGeneratedLocation
                   = Setter_eqb s MarkAutoGenerated)
  /\ (isNull getModuleCleanupLocation = true
      /\ is_ CleanupLocation getModuleCleanupLocation = true
      /\ forall s, readFlag s getModuleCleanupLocation
                   = Setter_eqb s MarkAsInTopLevel)
  /\ (forall ss,
        isNull (runSetters ss getModuleLocation) = true
        /\ isNull (runSetters ss getAutoGeneratedLocation) = true
        /\ isNull (runSetters ss getModuleCleanupLocation) = true)
  /\ (forall ast,
        exists t,
          getImplicitReturnLoc ast getModuleLocation = Ret t
          /\ is_ ImplicitReturnLocation t = true
          /\ isNull t = true
          /\ isInTopLevel t = true)
  /\ (forall ast, getImplicitReturnLoc ast getAutoGeneratedLocation = Abort).
Proof.
  split; [|split; [|split; [|split; [|split]]]].
  - repeat split. intros s. destruct s; reflexivity.
  - repeat split. intros s. destruct s; reflexivity.
  - repeat split. intros s. destruct s; reflexivity.
  - intros ss. rewrite !isNull_runSetters. repeat split.
  - intros ast. eexists. rewrite getImplicitReturnLoc_by_cases.
    cbn. repeat split.
  - intros ast. now rewrite getImplicitReturnLoc_by_cases.
Qed.

(** ** Views against each other *)

Lemma View_kind_inj (V V' : View) :
  LocationKind_val (View_kind V) = LocationKind_val (View_kind V') -> V = V'.
Proof. destruct V, V'; cbv; congruence. Qed.

(** A tag belongs to at most one view, and to one exactly when its kind is
    one of the eight kinds from Regular to SILFile: a tag of kind None
    narrows to no view. *)
Theorem views_partition_kinds (L : SILLocation) :
  (forall V V', is_ V L = true -> is_ V' L = true -> V = V')
  /\ ((exists V, is_ V L = true) <-> 1 <= getKind L <= 8)
  /\ (getKind L = LocationKind_val NoneKind ->
      forall V, is_ V L = false /\ getAs V L = None /\ castTo V L = Abort).
Proof.
  unfold is_. split; [|split].
  - intros V V' H H'. rewrite isKind_spec in H, H'.
    apply Z.eqb_eq in H, H'. apply View_kind_inj. congruence.
  - split.
    + intros [V H]. rewrite isKind_spec in H. apply Z.eqb_eq in H.
      rewrite H. destruct V; cbv; split; congruence.
    + intros H.
      assert (getKind L = 1 \/ getKind L = 2 \/ getKind L = 3
              \/ getKind L = 4 \/ (5 <= getKind L <= 8)) as Hc by lia.
      destruct Hc as [E|[E|[E|[E|Hc]]]].
      * exists RegularLocation. rewrite isKind_spec, E. reflexivity.
      * exists ReturnLocation. rewrite isKind_spec, E. reflexivity.
      * exists ImplicitReturnLocation. rewrite isKind_spec, E. reflexivity.
      * exists InlinedLocation. rewrite isKind_spec, E. reflexivity.
      * assert (getKind L = 5 \/ getKind L = 6 \/ getKind L = 7
                \/ getKind L = 8) as [E|[E|[E|E]]] by lia.
        -- exists MandatoryInlinedLocation.
           rewrite isKind_spec, E. reflexivity.
        -- exists CleanupLocation. rewrite isKind_spec, E. reflexivity.
        -- exists ArtificialUnreachableLocation.
           rewrite isKind_spec, E. reflexivity.
        -- exists SILFileLocation. rewrite isKind_spec, E. reflexivity.
  - intros HK V.
    assert (isKind V L = false) as E.
    { rewrite isKind_spec, HK. now destruct V. }
    unfold getAs, castTo. rewrite E. auto.
Qed.

Lemma views_partition_kinds_witness :
  is_ ReturnLocation (SILLocation_K NoneKind) = false
  /\ getAs ReturnLocation (SILLocation_K NoneKind) = None
  /\ castTo ReturnLocation (SILLocation_K NoneKind) = Abort.
Proof.
  destruct (views_partition_kinds (SILLocation_K NoneKind)) as (_ & _ & H).
  apply H. reflexivity.
Defined.

(** For every view the three narrowings agree: [castTo] aborts exactly
    when [is] is false, which is exactly when [getAs] is empty; [castTo]
    returns a tag exactly when [getAs] holds it; and the tag returned is the
    tag narrowed, so narrowing it again returns it again. *)
Theorem view_narrowings_agree (V : View) (L : SILLocation) :
  (castTo V L = Abort <-> is_ V L = false)
  /\ (getAs V L = None <-> is_ V L = false)
  /\ (forall t, castTo V L = Ret t <-> getAs V L = Some t)
  /\ (forall t, castTo V L = Ret t -> t = L /\ castTo V t = Ret t).
Proof.
  unfold is_, castTo, getAs.
  destruct (isKind V L) eqn:E; cbn [assertion bind negb].
  - rewrite assign_eq. split; [|split; [|split]].
    + split; discriminate.
    + split; discriminate.
    + intros t. split; intros H; injection H as <-; reflexivity.
    + intros t H. injection H as <-. split; [reflexivity|].
      rewrite E. cbn [assertion bind]. now rewrite assign_eq.
  - split; [|split; [|split]].
    + split; reflexivity.
    + split; reflexivity.
    + intros t. split; discriminate.
    + intros t H. discriminate H.
Qed.

Lemma view_narrowings_agree_witness :
  getModuleCleanupLocation = getModuleCleanupLocation
  /\ castTo CleanupLocation getModuleCleanupLocation
     = Ret getModuleCleanupLocation.
Proof.
  destruct (view_narrowings_agree CleanupLocation getModuleCleanupLocation)
    as (_ & _ & _ & H).
  apply H. reflexivity.
Defined.
